(** * ScraperPy: the scrape / dedup / persist pipeline and the resume prompt

    A shallow embedding of [scraper.py] and [resume_generator.py].

    - Python [str] values are [string]s (UTF-8 bytes).
    - A pandas data frame is the list of its rows; a cell is an
      [option string], [None] standing for NaN (an empty cell).
    - The workbook [jobs.xlsx] is a finite map from sheet names to
      rows. The merge is given twice: on the frames in memory, and in
      [Xlsx] on the cells on disk, where reading parses the NA texts
      and writing stores empty text as an empty cell.
    - The browser is a record of the pages it serves for each search
      term; a page is [None] when the wait for cards times out.
    - A BeautifulSoup document is the list of its tags in document
      order, which is the order [find] and [find_all] visit them in. *)

From Stdlib Require Import NArith Ascii String.
From stdpp Require Import base gmap list strings.

Open Scope string_scope.
Open Scope list_scope.

(** ** Python string primitives *)

Module Py.

Definition nl : string := String (ascii_of_N 10) "".

(** [s.startswith(p)] *)
Fixpoint startswith (p s : string) : bool :=
  match p with
  | "" => true
  | String a p' =>
      match s with
      | "" => false
      | String b s' => Ascii.eqb a b && startswith p' s'
      end
  end.

(** [w in t] on strings *)
Fixpoint contains (w t : string) : bool :=
  startswith w t ||
  match t with
  | "" => false
  | String _ t' => contains w t'
  end.

(** [str.lower()] on the letters the program's word lists are written
    in: ASCII, and the Latin-1 letters U+00C0..U+00DE, whose UTF-8
    form is the lead byte 0xC3 followed by 0x80..0x9E (0x97 is the
    multiplication sign and has no case). *)
Definition lower_ascii (c : ascii) : ascii :=
  let n := N_of_ascii c in
  if ((65 <=? n) && (n <=? 90))%N then ascii_of_N (n + 32) else c.

Definition lower_latin1 (c : ascii) : ascii :=
  let n := N_of_ascii c in
  if ((128 <=? n) && (n <=? 158) && negb (n =? 151))%N
  then ascii_of_N (n + 32) else c.

Definition lower_byte (after_c3 : bool) (c : ascii) : ascii :=
  if after_c3 then lower_latin1 (lower_ascii c) else lower_ascii c.

Fixpoint lower_from (after_c3 : bool) (s : string) : string :=
  match s with
  | "" => ""
  | String c s' =>
      String (lower_byte after_c3 c) (lower_from (N_of_ascii c =? 195)%N s')
  end.

Definition lower (s : string) : string := lower_from false s.

(** The state [lower_from] is in after the text [s]: whether the last
    byte read is the lead byte 0xC3. *)
Fixpoint ends_c3 (after_c3 : bool) (s : string) : bool :=
  match s with
  | "" => after_c3
  | String c s' => ends_c3 (N_of_ascii c =? 195)%N s'
  end.

(** truthiness of a [str] *)
Definition truthy (s : string) : bool :=
  match s with "" => false | _ => true end.

(** [s[:n]], counted in bytes *)
Definition slice_to (n : nat) (s : string) : string := String.substring 0 n s.

End Py.

(** ** The job record built by the scrapers *)

Record JobRecord := mkJob {
  title : string;
  company : string;
  location : string;
  description : string;
  url : string;
  posted_date : string;
  platform : string;
  search_term : string
}.

(** ** resume_generator.py *)

Definition german_markers : list string :=
  [ "und"; "der"; "die"; "das"; "mit"; "für"; "bei"; "nicht";
    "entwickeln"; "bewerben"; "kenntnisse"; "erfahrung";
    "arbeitgeber"; "bereich"; "teamfähig"; "studium";
    "werkstudent"; "praktikum" ].

Definition english_markers : list string :=
  [ "and"; "the"; "with"; "for"; "software"; "engineer";
    "responsibilities"; "requirements"; "experience";
    "working student"; "internship" ].

(** [sum(1 for w in markers if w in t)] *)
Definition score (markers : list string) (t : string) : nat :=
  length (filter (fun w => Py.contains w t = true) markers).

Definition german_score (t : string) : nat := score german_markers t.
Definition english_score (t : string) : nat := score english_markers t.

Definition detect_language (text : string) : string :=
  let t := Py.lower text in
  if bool_decide (english_score t < german_score t) then "German" else "English".

Definition english_instruction : string :=
  "Write the entire resume in fluent, professional English.".

Definition german_instruction : string :=
  "Write the entire resume in fluent, professional German. Use clear, simple sentences suitable for a working student CV.".

Definition language_instruction (target_language : string) : string :=
  if Py.startswith "en" (Py.lower target_language)
  then english_instruction else german_instruction.

Definition prompt_head : string :=
  Py.nl +:+ "You are an expert resume writer for software and AI roles." +:+ Py.nl +:+
  Py.nl +:+ "Task:" +:+ Py.nl +:+
  "Using the CANDIDATE_PROFILE and JOB_DESCRIPTION below, create a tailored, one-to-two-page resume in clean Markdown format." +:+ Py.nl +:+
  Py.nl +:+ "Language:" +:+ Py.nl +:+ "- ".

Definition prompt_requirements : string :=
  Py.nl +:+ Py.nl +:+ "Requirements:" +:+ Py.nl +:+
  "- Focus on working student / junior software, data, or AI roles." +:+ Py.nl +:+
  "- Start with a short professional summary tailored to the job." +:+ Py.nl +:+
  "- Emphasize the most relevant skills for this specific job (hard skills first)." +:+ Py.nl +:+
  "- Reorder and selectively include experience and projects that best match the job description." +:+ Py.nl +:+
  "- Use concise bullet points with strong action verbs and measurable impact where possible." +:+ Py.nl +:+
  "- Use a neutral, professional tone." +:+ Py.nl +:+
  "- Do NOT invent fake companies or degrees." +:+ Py.nl +:+
  "- You may slightly rephrase tasks to better match the job wording, but keep them truthful." +:+ Py.nl +:+
  "- Output ONLY the resume in Markdown (no explanation, no preamble)." +:+ Py.nl +:+
  Py.nl +:+ "CANDIDATE_PROFILE (JSON):" +:+ Py.nl.

Definition prompt_job_header : string :=
  Py.nl +:+ Py.nl +:+ "JOB_DESCRIPTION (JSON):" +:+ Py.nl.

Section ResumePrompt.

(** [json.dumps(_, indent=2)] on the profile and on the job. *)
Context {Profile : Type}.
Variable dumps_profile : Profile -> string.
Variable dumps_job : JobRecord -> string.

Definition build_resume_prompt
    (profile : Profile) (job : JobRecord) (target_language : string) : string :=
  let profile_text := dumps_profile profile in
  let job_text := dumps_job job in
  prompt_head +:+ language_instruction target_language +:+
  prompt_requirements +:+ profile_text +:+
  prompt_job_header +:+ job_text +:+ Py.nl.

(** The prompt [generate_tailored_resume] sends to the model. *)
Definition tailored_prompt (profile : Profile) (job : JobRecord) : string :=
  let jd_text := description job in
  let target_language := detect_language jd_text in
  build_resume_prompt profile job target_language.

End ResumePrompt.

(** ** scraper.py: the workbook *)

(** One row of a platform sheet, in the fixed column order. *)
Record Row := mkRow {
  Job_Title : option string;
  Company : option string;
  Location : option string;
  Description : option string;
  URL : option string;
  Posted_Date : option string;
  Date_Added : option string;
  Applied : option string;
  Application_Date : option string;
  Status : option string;
  Notes : option string
}.

(** [jobs.xlsx]: sheet name to data frame. *)
Abbreviation Workbook := (gmap string (list Row)).

(** [pd.read_excel(EXCEL_FILE, sheet_name=...)] on the frames in memory;
    [None] when it raises because the sheet is missing. The parsing of
    stored cells is in [Xlsx.read_excel]. *)
Definition read_excel (wb : Workbook) (sheet_name : string) : option (list Row) :=
  wb !! sheet_name.

(** [df.to_excel(writer, sheet_name=...)] under
    [mode='a', if_sheet_exists='replace']. *)
Definition to_excel (df : list Row) (sheet_name : string) (wb : Workbook) : Workbook :=
  <[sheet_name := df]> wb.

(** [df.empty] *)
Definition df_empty (df : list Row) : bool :=
  match df with [] => true | _ :: _ => false end.

(** [set(df['URL'].dropna())] *)
Definition url_set (df : list Row) : gset string :=
  list_to_set (omap URL df).

(** one cell of [df['URL'].isin(existing_urls)] *)
Definition isin (cell : option string) (urls : gset string) : bool :=
  match cell with
  | Some u => bool_decide (u ∈ urls)
  | None => false
  end.

(** [create_excel_if_not_exists]: the argument is the file on disk,
    [None] when it does not exist. A file that cannot be saved without
    its "Jobs" sheet is covered by [Xlsx.create_excel_if_not_exists]. *)
Definition create_excel_if_not_exists (file : option Workbook) : Workbook :=
  match file with
  | Some wb => delete "Jobs" wb
  | None => to_excel [] "LinkedIn" (to_excel [] "StepStone" ∅)
  end.

(** The dictionary appended to [new_data] for one job. *)
Definition new_row (today : string) (job : JobRecord) : Row :=
  {| Job_Title := Some (title job);
     Company := Some (company job);
     Location := Some (location job);
     Description := Some (description job);
     URL := Some (url job);
     Posted_Date := Some (posted_date job);
     Date_Added := Some today;
     Applied := Some "No";
     Application_Date := Some "";
     Status := Some "New";
     Notes := Some "" |}.

Definition append_jobs_to_excel
    (today : string) (new_jobs : list JobRecord) (platform : string)
    (wb : Workbook) : Workbook :=
  match new_jobs with
  | [] => wb
  | _ :: _ =>
      let sheet_name := platform in
      let df_existing :=
        match read_excel wb sheet_name with
        | Some df => df
        | None => []
        end in
      let df_new := new_row today <$> new_jobs in
      let df_new :=
        if df_empty df_existing then df_new
        else
          let existing_urls := url_set df_existing in
          filter (fun r => isin (URL r) existing_urls = false) df_new in
      if df_empty df_new then wb
      else
        let df_combined :=
          if df_empty df_existing then df_new else df_existing ++ df_new in
        to_excel df_combined sheet_name wb
  end.

(** The rows stored for a platform ([[]] when the sheet is missing). *)
Definition sheet (wb : Workbook) (platform : string) : list Row :=
  default [] (read_excel wb platform).

(** Workbooks that a run of merges produces from a freshly created file. *)
Inductive reachable : Workbook -> Prop :=
| reachable_fresh : reachable (create_excel_if_not_exists None)
| reachable_merge wb today new_jobs platform :
    reachable wb ->
    reachable (append_jobs_to_excel today new_jobs platform wb).

(** ** scraper.py: cards and field extraction *)

(** A parsed tag: what the scrapers read off it. [tag_text] is
    [get_text(strip=True)]; [tag_class] lists the values of the class
    attribute ([[]] when there is none). *)
Record Tag := mkTag {
  tag_name : string;
  tag_class : list string;
  tag_href : option string;
  tag_datetime : option string;
  tag_text : string
}.

(** [soup.find(name, ...)] and [soup.find_all(name, ...)] *)
Definition find_tag (name : string) (p : Tag -> bool) (soup : list Tag) : option Tag :=
  List.find (fun t => String.eqb (tag_name t) name && p t) soup.

Definition find_all (name : string) (p : Tag -> bool) (soup : list Tag) : list Tag :=
  List.filter (fun t => String.eqb (tag_name t) name && p t) soup.

Definition any_tag (t : Tag) : bool := true.

(** [class_=lambda x: x and w in x if x else False]; the filter is
    tried on each class value. *)
Definition class_has (w : string) (t : Tag) : bool :=
  existsb (fun x => Py.truthy x && Py.contains w x) (tag_class t).

(** [class_=lambda x: x and w in str(x).lower() if x else False] *)
Definition class_has_lower (w : string) (t : Tag) : bool :=
  existsb (fun x => Py.truthy x && Py.contains w (Py.lower x)) (tag_class t).

(** [href=lambda x: x and w in x if x else False] *)
Definition href_has (w : string) (t : Tag) : bool :=
  match tag_href t with
  | Some x => Py.truthy x && Py.contains w x
  | None => false
  end.

(** [date_elem.get('datetime', 'N/A')] *)
Definition get_datetime (t : Tag) : string :=
  default "N/A" (tag_datetime t).

(** [any(j['url'] == job_url for j in jobs)] *)
Definition already_collected (job_url : string) (jobs : list JobRecord) : bool :=
  existsb (fun j => String.eqb (url j) job_url) jobs.

(** The link Selenium finds with
    [.//a[contains(@href, '/stellenangebote')]]: its [.text.strip()]
    and its [get_attribute('href')]. *)
Record WebLink := mkLink {
  link_text : string;
  link_href : option string
}.

(** A StepStone [article] element; [title_link] is [None] when
    [find_element] raises. *)
Record Article := mkArticle {
  title_link : option WebLink;
  outerHTML : list Tag
}.

Module StepStone.

Definition company_of (soup : list Tag) : string :=
  let company_elem := find_tag "span" (class_has_lower "company") soup in
  let company_elem :=
    match company_elem with
    | Some e => Some e
    | None =>
        let spans := find_all "span" any_tag soup in
        if bool_decide (1 < length spans) then spans !! 1 else None
    end in
  match company_elem with
  | Some e => tag_text e
  | None => "N/A"
  end.

Definition location_of (location : string) (soup : list Tag) : string :=
  match find_tag "span" (class_has_lower "location") soup with
  | Some e => tag_text e
  | None => location
  end.

Definition description_of (soup : list Tag) : string :=
  match find_tag "p" any_tag soup with
  | Some e => tag_text e
  | None => ""
  end.

Definition posted_date_of (soup : list Tag) : string :=
  match find_tag "time" any_tag soup with
  | Some e => get_datetime e
  | None => "N/A"
  end.

(** The body of [for card in job_card_elements], as a step on [jobs]. *)
Definition card_step (search_term location : string)
    (jobs : list JobRecord) (card : Article) : list JobRecord :=
  match title_link card with
  | None => jobs
  | Some link =>
      let job_title := link_text link in
      match link_href link with
      | None => jobs
      | Some job_url =>
          if negb (Py.truthy job_url) then jobs
          else
            let job_url :=
              if Py.startswith "http" job_url then job_url
              else "https://www.stepstone.de" +:+ job_url in
            let soup := outerHTML card in
            let company := company_of soup in
            let job_location := location_of location soup in
            let description := description_of soup in
            let posted_date := posted_date_of soup in
            if already_collected job_url jobs then jobs
            else
              jobs ++ [ {| title := job_title;
                           company := company;
                           location := job_location;
                           description := Py.slice_to 500 description;
                           url := job_url;
                           posted_date := posted_date;
                           platform := "StepStone";
                           search_term := search_term |} ]
      end
  end.

(** [for page in range(1, max_pages + 1)]; a page is [None] when the
    wait for an [article] times out or the load raises. *)
Fixpoint pages_loop (search_term location : string)
    (pages : list (option (list Article))) (jobs : list JobRecord)
    : list JobRecord :=
  match pages with
  | [] => jobs
  | None :: _ => jobs
  | Some [] :: _ => jobs
  | Some job_card_elements :: rest =>
      pages_loop search_term location rest
        (foldl (card_step search_term location) jobs job_card_elements)
  end.

End StepStone.

(** An element of a LinkedIn result page together with the tags below it. *)
Record Node := mkNode {
  node_tag : Tag;
  node_descendants : list Tag
}.

Definition find_all_nodes (name : string) (p : Tag -> bool) (soup : list Node) : list Node :=
  List.filter (fun n => String.eqb (tag_name (node_tag n)) name && p (node_tag n)) soup.

Module LinkedIn.

Definition view_link (card : list Tag) : option Tag :=
  find_tag "a" (href_has "/jobs/view/") card.

Definition company_of (card : list Tag) : string :=
  let company_elem := find_tag "h4" (class_has "base-search-card__subtitle") card in
  let company_elem :=
    match company_elem with
    | Some e => Some e
    | None => find_tag "a" (class_has_lower "company") card
    end in
  match company_elem with
  | Some e => tag_text e
  | None => "N/A"
  end.

Definition location_of (location : string) (card : list Tag) : string :=
  match find_tag "span" (class_has "job-search-card__location") card with
  | Some e => tag_text e
  | None => location
  end.

Definition posted_date_of (card : list Tag) : string :=
  match find_tag "time" any_tag card with
  | Some e => get_datetime e
  | None => "24h"
  end.

(** The body of [for card in job_cards], as a step on [jobs]. *)
Definition card_step (search_term location : string)
    (jobs : list JobRecord) (card : list Tag) : list JobRecord :=
  let title_elem := find_tag "h3" (class_has "base-search-card__title") card in
  let title_elem :=
    match title_elem with
    | Some e => Some e
    | None => view_link card
    end in
  match title_elem with
  | None => jobs
  | Some title_elem =>
      let job_title := tag_text title_elem in
      let link_elem := view_link card in
      let job_url :=
        match link_elem with
        | Some e => tag_href e
        | None => None
        end in
      let job_url :=
        match job_url with
        | Some u =>
            if Py.truthy u && negb (Py.startswith "http" u)
            then Some ("https://www.linkedin.com" +:+ u) else Some u
        | None => None
        end in
      let company := company_of card in
      let job_location := location_of location card in
      let posted_date := posted_date_of card in
      match job_url with
      | Some u =>
          if Py.truthy u && negb (already_collected u jobs)
          then
            jobs ++ [ {| title := job_title;
                         company := company;
                         location := job_location;
                         description := "";
                         url := u;
                         posted_date := posted_date;
                         platform := "LinkedIn";
                         search_term := search_term |} ]
          else jobs
      | None => jobs
      end
  end.

(** [for page in range(max_pages)]; a page is [None] when loading
    it raises. *)
Fixpoint pages_loop (search_term location : string)
    (pages : list (option (list Node))) (jobs : list JobRecord)
    : list JobRecord :=
  match pages with
  | [] => jobs
  | None :: _ => jobs
  | Some soup :: rest =>
      let job_cards := find_all_nodes "div" (class_has "base-card") soup in
      let job_cards :=
        match job_cards with
        | [] => find_all_nodes "li" (class_has_lower "job") soup
        | _ :: _ => job_cards
        end in
      match job_cards with
      | [] => jobs
      | _ :: _ =>
          pages_loop search_term location rest
            (foldl (card_step search_term location) jobs
                   (node_descendants <$> job_cards))
      end
  end.

End LinkedIn.

(** ** scraper.py: the browser session and the orchestrator *)

(** What the shared browser serves: for a search term and a location,
    the result pages of each site in the order the scraper loads them. *)
Record Driver := mkDriver {
  stepstone_pages : string -> string -> list (option (list Article));
  linkedin_pages : string -> string -> list (option (list Node))
}.

Definition scrape_stepstone (driver : Driver)
    (search_term location : string) (max_pages : nat) : list JobRecord :=
  StepStone.pages_loop search_term location
    (take max_pages (stepstone_pages driver search_term location)) [].

Definition scrape_linkedin (driver : Driver)
    (search_term location : string) (max_pages : nat) : list JobRecord :=
  LinkedIn.pages_loop search_term location
    (take max_pages (linkedin_pages driver search_term location)) [].

Definition scrape_all_platforms (driver : Driver)
    (search_terms : list string) (location : string) (max_pages : nat)
    : list JobRecord * list JobRecord :=
  foldl
    (fun acc search_term =>
       let stepstone_jobs := fst acc in
       let linkedin_jobs := snd acc in
       (stepstone_jobs ++ scrape_stepstone driver search_term location max_pages,
        linkedin_jobs ++ scrape_linkedin driver search_term location max_pages))
    ([], []) search_terms.

Definition search_keywords : list string :=
  [ "werkstudent IT"; "working student software" ].

(** The [__main__] block: create the file, scrape, merge each platform. *)
Definition main (driver : Driver) (today : string) (file : option Workbook) : Workbook :=
  let wb := create_excel_if_not_exists file in
  let jobs := scrape_all_platforms driver search_keywords "Berlin" 2 in
  let stepstone_jobs := fst jobs in
  let linkedin_jobs := snd jobs in
  append_jobs_to_excel today linkedin_jobs "LinkedIn"
    (append_jobs_to_excel today stepstone_jobs "StepStone" wb).

(** The URL column of a frame. *)
Definition urls (df : list Row) : list (option string) := URL <$> df.

(** ** Scenarios *)

Module Scenario.

(** A StepStone card whose title link is found. *)
Definition article (text href : string) (soup : list Tag) : Article :=
  {| title_link := Some {| link_text := text; link_href := Some href |};
     outerHTML := soup |}.

Definition span (classes : list string) (text : string) : Tag :=
  {| tag_name := "span"; tag_class := classes; tag_href := None;
     tag_datetime := None; tag_text := text |}.

Definition anchor (href text : string) : Tag :=
  {| tag_name := "a"; tag_class := []; tag_href := Some href;
     tag_datetime := None; tag_text := text |}.

Definition heading (classes : list string) (text : string) : Tag :=
  {| tag_name := "h3"; tag_class := classes; tag_href := None;
     tag_datetime := None; tag_text := text |}.

(** A LinkedIn result card: a [div] of class [base-card]. *)
Definition base_card (below : list Tag) : Node :=
  {| node_tag := {| tag_name := "div"; tag_class := ["base-card"];
                    tag_href := None; tag_datetime := None; tag_text := "" |};
     node_descendants := below |}.

(** A posting that both search keywords of [main] find on StepStone. *)
Definition shared_posting : Article :=
  article "Werkstudent IT (m/w/d)"
    "https://www.stepstone.de/stellenangebote--Werkstudent-IT-Berlin--123.html"
    [ span [] "Werkstudent IT (m/w/d)"; span [] "Beispiel AG" ].

Definition overlapping_driver : Driver :=
  {| stepstone_pages := fun _ _ => [ Some [ shared_posting ] ];
     linkedin_pages := fun _ _ => [] |}.

(** A LinkedIn card with a title and a job link but no [time] tag. *)
Definition undated_card : list Tag :=
  [ heading ["base-search-card__title"] "Working Student Software";
    anchor "https://www.linkedin.com/jobs/view/42" "Working Student Software" ].

Definition linkedin_driver : Driver :=
  {| stepstone_pages := fun _ _ => [];
     linkedin_pages := fun _ _ => [ Some [ base_card undated_card ] ] |}.

Definition bilingual_posting : string :=
  "Working student software engineer for the Entwicklung und Wartung der Plattform".

End Scenario.

(** The rows a merge puts below the existing ones. *)
Definition added_rows (today : string) (df_existing : list Row)
    (new_jobs : list JobRecord) : list Row :=
  let df_new := new_row today <$> new_jobs in
  if df_empty df_existing then df_new
  else filter (fun r => isin (URL r) (url_set df_existing) = false) df_new.

(** ** resume_generator.py: the file name of a resume *)

(** [sanitize_filename] tests single characters against the Unicode
    tables, so here a [str] is the list of its code points. The tables
    behind [str.isalnum] and behind the white space [str.strip] removes
    are parameters. *)
Module Filename.

(** The code points of an ASCII literal. *)
Definition codepoints (s : string) : list N :=
  N_of_ascii <$> String.list_ascii_of_string s.

Definition space : N := 32.
Definition underscore : N := 95.

(** [keep = "-_.() "] *)
Definition keep : list N := codepoints "-_.() ".

Section Tables.

Variable isalnum : N -> bool.
Variable isspace : N -> bool.

Fixpoint lstrip (s : list N) : list N :=
  match s with
  | [] => []
  | c :: s' => if isspace c then lstrip s' else s
  end.

Definition rstrip (s : list N) : list N := reverse (lstrip (reverse s)).

(** [s.strip()] *)
Definition strip (s : list N) : list N := rstrip (lstrip s).

(** [s.replace(" ", "_")] *)
Definition replace_spaces (s : list N) : list N :=
  (fun c => if (c =? space)%N then underscore else c) <$> s.

Definition kept (c : N) : bool := isalnum c || bool_decide (c ∈ keep).

Definition sanitize_filename (text : list N) : list N :=
  replace_spaces (strip (List.filter kept text)).

(** The characters a sanitized name is made of. *)
Definition name_char (c : N) : Prop :=
  c <> space /\ (isalnum c = true \/ c ∈ codepoints "-_.()").

(** The name [generate_tailored_resume] gives the file; [date_str] is
    [datetime.now().strftime("%Y%m%d")]. *)
Definition resume_filename (company title date_str : list N) : list N :=
  codepoints "resume_" ++ sanitize_filename company ++ [underscore]
  ++ sanitize_filename title ++ [underscore] ++ date_str ++ codepoints ".md".

End Tables.

(** The two tables on ASCII and Latin-1. *)
Definition isalnum_latin1 (c : N) : bool :=
  ((48 <=? c) && (c <=? 57) || (65 <=? c) && (c <=? 90)
   || (97 <=? c) && (c <=? 122)
   || bool_decide (c ∈ [170; 178; 179; 181; 185; 186; 188; 189; 190])
   || (192 <=? c) && (c <=? 255) && negb (c =? 215) && negb (c =? 247))%N.

Definition isspace_latin1 (c : N) : bool :=
  ((9 <=? c) && (c <=? 13) || (28 <=? c) && (c <=? 32)
   || (c =? 133) || (c =? 160))%N.

End Filename.

(** ** Sample rows and records *)

Module Fixture.

(** A stored row the user has edited. *)
Definition old_row : Row :=
  {| Job_Title := Some "Dev"; Company := Some "ACME";
     Location := Some "Berlin"; Description := None;
     URL := Some "https://www.stepstone.de/stellenangebote--Dev--1.html";
     Posted_Date := Some "2025-11-30"; Date_Added := Some "2025-12-01";
     Applied := Some "Yes"; Application_Date := Some "2025-12-02";
     Status := Some "Interview"; Notes := Some "call back" |}.

(** A record with the URL of [old_row]. *)
Definition job_a : JobRecord :=
  {| title := "Dev"; company := "ACME"; location := "Berlin";
     description := "";
     url := "https://www.stepstone.de/stellenangebote--Dev--1.html";
     posted_date := "2025-11-30"; platform := "StepStone";
     search_term := "werkstudent IT" |}.

Definition job_b : JobRecord :=
  {| title := "Ops"; company := "Initech"; location := "Berlin";
     description := "";
     url := "https://www.stepstone.de/stellenangebote--Ops--2.html";
     posted_date := "N/A"; platform := "StepStone";
     search_term := "werkstudent IT" |}.

(** A [time] tag without a [datetime] attribute, and a LinkedIn card
    that has it next to its job link. *)
Definition bare_time : Tag :=
  {| tag_name := "time"; tag_class := []; tag_href := None;
     tag_datetime := None; tag_text := "vor 3 Stunden" |}.

Definition bare_time_card : list Tag :=
  [ Scenario.anchor "/jobs/view/7" "Werkstudent"; bare_time ].

(** The record the LinkedIn scraper builds from [bare_time_card]. *)
Definition bare_time_record : JobRecord :=
  {| title := "Werkstudent"; company := "N/A"; location := "Berlin";
     description := ""; url := "https://www.linkedin.com/jobs/view/7";
     posted_date := "N/A"; platform := "LinkedIn";
     search_term := "werkstudent IT" |}.

(** A browser whose second StepStone page times out although a third
    page exists. *)
Definition two_then_timeout : Driver :=
  {| stepstone_pages := fun _ _ =>
       [ Some [ Scenario.shared_posting ]; None;
         Some [ Scenario.article "Ops"
                  "https://www.stepstone.de/stellenangebote--Ops--2.html" [] ] ];
     linkedin_pages := fun _ _ => [] |}.

End Fixture.

(** A LinkedIn page on which neither selector finds a card. *)
Definition no_cards (soup : list Node) : Prop :=
  find_all_nodes "div" (class_has "base-card") soup = []
  /\ find_all_nodes "li" (class_has_lower "job") soup = [].


(** ** scraper.py: the cells on disk *)

(** The merge with the cells of [jobs.xlsx] as they are stored. Here a
    workbook holds the cells on disk, [None] being an empty cell.
    [pd.read_excel] turns an empty cell and every text of its default
    NA list into NaN; [to_excel] writes NaN and the empty text as an
    empty cell. The definitions above work on the frames in memory. *)
Module Xlsx.

(** The texts [pd.read_excel] reads as NaN by default. *)
Definition na_values : list string :=
  [ ""; "#N/A"; "#N/A N/A"; "#NA"; "-1.#IND"; "-1.#QNAN"; "-NaN"; "-nan";
    "1.#IND"; "1.#QNAN"; "<NA>"; "N/A"; "NA"; "NULL"; "NaN"; "None";
    "n/a"; "nan"; "null" ].

Definition is_na (s : string) : bool := bool_decide (s ∈ na_values).

(** A stored cell as [pd.read_excel] returns it. *)
Definition parse_cell (cell : option string) : option string :=
  match cell with
  | Some s => if is_na s then None else Some s
  | None => None
  end.

(** A frame value as [to_excel] stores it. *)
Definition store_cell (value : option string) : option string :=
  match value with
  | Some "" => None
  | Some s => Some s
  | None => None
  end.

Definition map_row (f : option string -> option string) (r : Row) : Row :=
  {| Job_Title := f (Job_Title r);
     Company := f (Company r);
     Location := f (Location r);
     Description := f (Description r);
     URL := f (URL r);
     Posted_Date := f (Posted_Date r);
     Date_Added := f (Date_Added r);
     Applied := f (Applied r);
     Application_Date := f (Application_Date r);
     Status := f (Status r);
     Notes := f (Notes r) |}.

Definition parse_row : Row -> Row := map_row parse_cell.
Definition store_row : Row -> Row := map_row store_cell.

(** [pd.read_excel(EXCEL_FILE, sheet_name=...)] on the stored cells;
    [None] when it raises because the sheet is missing. *)
Definition read_excel (wb : Workbook) (sheet_name : string) : option (list Row) :=
  match wb !! sheet_name with
  | Some rows => Some (parse_row <$> rows)
  | None => None
  end.

(** [df.to_excel(writer, sheet_name=...)] under
    [mode='a', if_sheet_exists='replace']. *)
Definition to_excel (df : list Row) (sheet_name : string) (wb : Workbook) : Workbook :=
  <[sheet_name := store_row <$> df]> wb.

Definition append_jobs_to_excel
    (today : string) (new_jobs : list JobRecord) (platform : string)
    (wb : Workbook) : Workbook :=
  match new_jobs with
  | [] => wb
  | _ :: _ =>
      let sheet_name := platform in
      let df_existing :=
        match read_excel wb sheet_name with
        | Some df => df
        | None => []
        end in
      let df_new := new_row today <$> new_jobs in
      let df_new :=
        if df_empty df_existing then df_new
        else
          let existing_urls := url_set df_existing in
          filter (fun r => isin (URL r) existing_urls = false) df_new in
      if df_empty df_new then wb
      else
        let df_combined :=
          if df_empty df_existing then df_new else df_existing ++ df_new in
        to_excel df_combined sheet_name wb
  end.

(** The frame [pd.read_excel] gives for a platform ([[]] when the
    sheet is missing). *)
Definition frame (wb : Workbook) (platform : string) : list Row :=
  default [] (read_excel wb platform).

(** The file [jobs.xlsx]: absent, present but not loadable, or a
    workbook. *)
Inductive File :=
| Missing
| Unreadable
| Book (wb : Workbook).

(** [create_excel_if_not_exists] on the file. A workbook must keep one
    sheet: when "Jobs" is the only sheet, [wb.save] fails after the
    file is opened for writing and the bare [except] hides it. *)
Definition create_excel_if_not_exists (file : File) : File :=
  match file with
  | Missing => Book (to_excel [] "LinkedIn" (to_excel [] "StepStone" ∅))
  | Unreadable => Unreadable
  | Book wb =>
      match wb !! "Jobs" with
      | Some _ =>
          if bool_decide (delete "Jobs" wb = ∅) then Unreadable
          else Book (delete "Jobs" wb)
      | None => Book wb
      end
  end.

(** A stored row with an edited note, and a record with a fresh URL. *)
Definition noted_row : Row :=
  {| Job_Title := Some "Dev"; Company := Some "N/A";
     Location := Some "Berlin"; Description := None;
     URL := Some "https://www.stepstone.de/stellenangebote--Dev--1.html";
     Posted_Date := Some "N/A"; Date_Added := Some "2025-12-01";
     Applied := Some "Yes"; Application_Date := Some "2025-12-02";
     Status := Some "Interview"; Notes := Some "n/a" |}.

Definition fresh_job : JobRecord :=
  {| title := "Ops"; company := "Initech"; location := "Berlin";
     description := "";
     url := "https://www.stepstone.de/stellenangebote--Ops--2.html";
     posted_date := "2025-12-03"; platform := "StepStone";
     search_term := "werkstudent IT" |}.

(** A record whose URL is one of the NA texts. *)
Definition na_job : JobRecord :=
  {| title := "Dev"; company := "ACME"; location := "Berlin";
     description := ""; url := "NA"; posted_date := "N/A";
     platform := "StepStone"; search_term := "werkstudent IT" |}.

End Xlsx.

(** ** scraper.py: the stored URLs *)

(** [read_existing_urls]: the argument is the file on disk, [None] when
    it does not exist; a sheet that cannot be read gives the empty set. *)
Definition read_existing_urls (file : option Workbook) (sheet_name : string)
    : gset string :=
  match file with
  | None => ∅
  | Some wb =>
      match read_excel wb sheet_name with
      | Some df => url_set df
      | None => ∅
      end
  end.

(** * Properties *)

(** ** The merge *)

Section Merge.

Implicit Types (wb : Workbook) (df : list Row) (jobs : list JobRecord).
Implicit Types (today platform : string).

Lemma df_empty_true df : df_empty df = true <-> df = [].
Proof. destruct df; simpl; split; congruence. Qed.

Lemma sheet_to_excel df platform wb :
  sheet (to_excel df platform wb) platform = df.
Proof. unfold sheet, read_excel, to_excel. by rewrite lookup_insert_eq. Qed.

Lemma sheet_to_excel_ne df platform other wb :
  platform <> other ->
  sheet (to_excel df platform wb) other = sheet wb other.
Proof.
  intros Hne. unfold sheet, read_excel, to_excel.
  by rewrite lookup_insert_ne.
Qed.

Lemma elem_of_url_set df u : u ∈ url_set df <-> Some u ∈ urls df.
Proof.
  unfold url_set, urls.
  rewrite elem_of_list_to_set, list_elem_of_omap, list_elem_of_fmap.
  split; intros (r & H1 & H2); exists r; split; auto.
Qed.

Lemma isin_false df u : isin (Some u) (url_set df) = false <-> Some u ∉ urls df.
Proof.
  simpl. rewrite bool_decide_eq_false. by rewrite elem_of_url_set.
Qed.

(** What a merge leaves in the platform's sheet: the rows that were
    there, then the rows it adds. *)
Lemma merge_sheet today jobs platform wb :
  sheet (append_jobs_to_excel today jobs platform wb) platform
  = sheet wb platform ++ added_rows today (sheet wb platform) jobs.
Proof.
  unfold append_jobs_to_excel, added_rows.
  destruct jobs as [|j jobs].
  { destruct (df_empty (sheet wb platform)); simpl; by rewrite app_nil_r. }
  fold (sheet wb platform).
  change (match read_excel wb platform with Some df => df | None => [] end)
    with (sheet wb platform).
  set (ex := sheet wb platform).
  set (df_new := new_row today <$> j :: jobs).
  destruct ex as [|r ex'] eqn:Hex; simpl df_empty; cbv iota.
  - destruct df_new eqn:Hnew; [done|].
    simpl df_empty; cbv iota. by rewrite sheet_to_excel.
  - set (kept := filter _ df_new).
    destruct kept eqn:Hk; simpl df_empty; cbv iota.
    + subst ex. rewrite Hex. by rewrite app_nil_r.
    + by rewrite sheet_to_excel.
Qed.

(** A merge into one platform's sheet leaves the other sheets alone. *)
Lemma merge_other_sheet today jobs platform other wb :
  platform <> other ->
  sheet (append_jobs_to_excel today jobs platform wb) other = sheet wb other.
Proof.
  intros Hne. unfold append_jobs_to_excel.
  destruct jobs; [done|].
  repeat match goal with |- context [if ?b then _ else _] => destruct b end;
    try done; by rewrite sheet_to_excel_ne.
Qed.

(** When nothing survives the filter the workbook is not written. *)
Lemma merge_noop today jobs platform wb :
  added_rows today (sheet wb platform) jobs = [] ->
  append_jobs_to_excel today jobs platform wb = wb.
Proof.
  unfold append_jobs_to_excel, added_rows.
  destruct jobs as [|j jobs]; [done|].
  change (match read_excel wb platform with Some df => df | None => [] end)
    with (sheet wb platform).
  intros Hadd.
  destruct (df_empty (sheet wb platform)); by rewrite Hadd.
Qed.


(** After a merge every URL of the batch is in the sheet. *)
Lemma merge_covers today jobs platform wb j :
  j ∈ jobs ->
  Some (url j) ∈ urls (sheet (append_jobs_to_excel today jobs platform wb) platform).
Proof.
  intros Hj. rewrite merge_sheet. unfold urls. rewrite fmap_app, elem_of_app.
  unfold added_rows.
  destruct (sheet wb platform) as [|r ex] eqn:Hex; simpl df_empty; cbv iota.
  - right. apply list_elem_of_fmap. exists (new_row today j). split; [done|].
    apply list_elem_of_fmap. eauto.
  - destruct (decide (Some (url j) ∈ urls (r :: ex))) as [Hin|Hout]; [by left|].
    right. apply list_elem_of_fmap. exists (new_row today j). split; [done|].
    apply list_elem_of_filter. split.
    + by apply isin_false.
    + apply list_elem_of_fmap. eauto.
Qed.

Lemma filter_none {A} (P : A -> Prop) `{forall x, Decision (P x)} (l : list A) :
  (forall x, x ∈ l -> ~ P x) -> filter P l = [].
Proof.
  induction l as [|x l IH]; intros Hall; [done|].
  rewrite filter_cons_False by (apply Hall; left).
  apply IH. intros y Hy. apply Hall. by right.
Qed.

(** Merging a batch a second time changes nothing. *)
Lemma merge_again today today' jobs platform wb :
  let wb1 := append_jobs_to_excel today jobs platform wb in
  append_jobs_to_excel today' jobs platform wb1 = wb1.
Proof.
  intros wb1. apply merge_noop. unfold added_rows.
  destruct jobs as [|j0 jobs]; [by destruct (df_empty _)|].
  assert (Hne : df_empty (sheet wb1 platform) = false).
  { pose proof (merge_covers today (j0 :: jobs) platform wb j0) as Hc.
    fold wb1 in Hc. destruct (sheet wb1 platform); [|done].
    exfalso. specialize (Hc ltac:(left)). inversion Hc. }
  rewrite Hne. apply filter_none.
  intros r (j & -> & Hj)%list_elem_of_fmap Hr.
  apply isin_false in Hr. apply Hr.
  by apply merge_covers.
Qed.

End Merge.

Section MergeClaims.

Implicit Types (wb : Workbook) (df : list Row) (jobs : list JobRecord).
Implicit Types (today platform : string).

Lemma sheet_fresh platform : sheet (create_excel_if_not_exists None) platform = [].
Proof.
  unfold sheet, read_excel, create_excel_if_not_exists, to_excel.
  rewrite !lookup_insert. repeat case_decide; try done.
Qed.


(** C1. Merged into an empty platform sheet, a batch of two records
    that share the URL "a" is persisted as two rows, one per record,
    both with URL "a". *)
Theorem merge_into_empty_keeps_both today platform (j1 j2 : JobRecord) :
  url j1 = "a" -> url j2 = "a" ->
  let wb := append_jobs_to_excel today [j1; j2] platform
              (create_excel_if_not_exists None) in
  sheet wb platform = [new_row today j1; new_row today j2]
  /\ urls (sheet wb platform) = [Some "a"; Some "a"].
Proof.
  intros H1 H2 wb. unfold wb. rewrite merge_sheet, sheet_fresh.
  change (added_rows today [] [j1; j2])
    with [new_row today j1; new_row today j2].
  rewrite app_nil_l. split; [done|].
  unfold urls. simpl. by rewrite H1, H2.
Qed.

Lemma merge_into_empty_keeps_both_run :
  let j := mkJob "Dev" "ACME" "Berlin" "" "a" "N/A" "StepStone" "werkstudent IT" in
  urls (sheet (append_jobs_to_excel "2025-12-03" [j; j] "StepStone"
                 (create_excel_if_not_exists None)) "StepStone")
  = [Some "a"; Some "a"].
Proof.
  intros j.
  exact (proj2 (merge_into_empty_keeps_both "2025-12-03" "StepStone" j j
                  eq_refl eq_refl)).
Defined.

(** C2. A workbook reachable from a freshly created file by merges
    can hold the same URL in two rows of a platform sheet. *)
Theorem reachable_sheet_repeats_url :
  exists wb, reachable wb /\ ~ NoDup (urls (sheet wb "StepStone")).
Proof.
  set (j := mkJob "Dev" "ACME" "Berlin" "" "a" "N/A" "StepStone" "werkstudent IT").
  exists (append_jobs_to_excel "2025-12-03" [j; j] "StepStone"
            (create_excel_if_not_exists None)).
  split; [apply reachable_merge, reachable_fresh|].
  rewrite merge_sheet, sheet_fresh. simpl.
  intros Hnd. apply NoDup_cons in Hnd as [Hnot _]. apply Hnot. by left.
Qed.

End MergeClaims.

(** ** Strings *)

Section Strings.

Lemma startswith_app p b : Py.startswith p (p +:+ b) = true.
Proof.
  induction p as [|a p IH]; [done|].
  simpl. by rewrite Ascii.eqb_refl, IH.
Qed.

Lemma startswith_inv p s : Py.startswith p s = true -> exists b, s = p +:+ b.
Proof.
  revert s. induction p as [|a p IH]; intros s Hs; [by exists s|].
  destruct s as [|c s]; [done|]. simpl in Hs.
  apply andb_true_iff in Hs as [Hac Hps].
  apply Ascii.eqb_eq in Hac. subst c.
  destruct (IH s Hps) as [b ->]. by exists b.
Qed.

Lemma contains_app a w b : Py.contains w (a +:+ w +:+ b) = true.
Proof.
  induction a as [|c a IH].
  - simpl String.append. destruct (w +:+ b) eqn:Hwb.
    + simpl. rewrite <- Hwb at 1. by rewrite startswith_app.
    + simpl. rewrite <- Hwb at 1. by rewrite startswith_app.
  - change (String c a +:+ w +:+ b) with (String c (a +:+ w +:+ b)).
    simpl. rewrite IH. by rewrite orb_true_r.
Qed.

Lemma contains_inv w t :
  Py.contains w t = true -> exists a b, t = a +:+ w +:+ b.
Proof.
  induction t as [|c t IH]; simpl; intros Hc.
  - rewrite orb_false_r in Hc. apply startswith_inv in Hc as [b ->].
    by exists "", b.
  - apply orb_true_iff in Hc as [Hs|Hc].
    + apply startswith_inv in Hs as [b ->]. by exists "", b.
    + destruct (IH Hc) as (a & b & ->). by exists (String c a), b.
Qed.

Lemma lower_from_app st a b :
  Py.lower_from st (a +:+ b)
  = Py.lower_from st a +:+ Py.lower_from (Py.ends_c3 st a) b.
Proof.
  revert st. induction a as [|c a IH]; intros st; [done|].
  simpl. by rewrite IH.
Qed.

(** A word that lowering leaves alone wherever it stands is still in
    the text after lowering. *)
Lemma contains_lower w t :
  (forall st, Py.lower_from st w = w) ->
  Py.contains w t = true -> Py.contains w (Py.lower t) = true.
Proof.
  intros Hw (a & b & ->)%contains_inv.
  unfold Py.lower. rewrite !lower_from_app, Hw.
  apply contains_app.
Qed.

End Strings.

(** ** Language detection and the resume prompt *)

Section Resume.

Context {Profile : Type}.
Variable dumps_profile : Profile -> string.
Variable dumps_job : JobRecord -> string.

Lemma detect_language_german text :
  english_score (Py.lower text) < german_score (Py.lower text) ->
  detect_language text = "German".
Proof. intros H. unfold detect_language. by rewrite bool_decide_eq_true_2. Qed.

(** Detection answers "English" unless the German count is strictly
    the larger one. *)
Lemma detect_language_english text :
  german_score (Py.lower text) <= english_score (Py.lower text) ->
  detect_language text = "English".
Proof.
  intros H. unfold detect_language. rewrite bool_decide_eq_false_2; [done|lia].
Qed.

(** A text with "und" and "der" in it counts at least two German markers. *)
Lemma german_score_und_der text :
  Py.contains "und" text = true -> Py.contains "der" text = true ->
  2 <= german_score (Py.lower text).
Proof.
  intros Hund Hder.
  apply contains_lower in Hund; [|by intros []].
  apply contains_lower in Hder; [|by intros []].
  unfold german_score, score, german_markers.
  rewrite !filter_cons_True by done. simpl. lia.
Qed.

Lemma prompt_has_instruction profile job target_language :
  Py.contains (language_instruction target_language)
    (build_resume_prompt dumps_profile dumps_job profile job target_language)
  = true.
Proof. unfold build_resume_prompt. apply contains_app. Qed.

(** C9. A description with the words "und", "der" and "Entwicklung" in
    which at most one English marker occurs is detected as German, and
    the prompt built for the detected language carries the instruction
    to write in German. *)
Theorem german_words_give_german_prompt profile job text :
  Py.contains "und" text = true ->
  Py.contains "der" text = true ->
  Py.contains "Entwicklung" text = true ->
  english_score (Py.lower text) <= 1 ->
  detect_language text = "German"
  /\ Py.contains german_instruction
       (build_resume_prompt dumps_profile dumps_job profile job
          (detect_language text)) = true.
Proof.
  intros Hund Hder _ Hen.
  assert (Hde : detect_language text = "German").
  { apply detect_language_german.
    pose proof (german_score_und_der text Hund Hder). lia. }
  split; [done|]. rewrite Hde.
  apply (prompt_has_instruction profile job "German").
Qed.

End Resume.

Lemma german_words_give_german_prompt_witness :
  detect_language "und der Entwicklung" = "German"
  /\ Py.contains german_instruction
       (build_resume_prompt (fun _ : unit => "{}") (fun _ => "{}") tt
          (mkJob "Werkstudent" "Beispiel AG" "Berlin" "und der Entwicklung"
             "https://example.com/job/456" "2025-12-03" "StepStone" "werkstudent IT")
          (detect_language "und der Entwicklung")) = true.
Proof.
  apply german_words_give_german_prompt.
  - reflexivity.
  - reflexivity.
  - reflexivity.
  - vm_compute. lia.
Defined.

(** C9, as the specification words it: a description with the three
    words need not be detected as German, and its prompt then asks for
    English. *)
Lemma german_words_not_always_german :
  ~ (forall (job : JobRecord) (text : string),
       Py.contains "und" text = true ->
       Py.contains "der" text = true ->
       Py.contains "Entwicklung" text = true ->
       detect_language text = "German"
       /\ Py.contains german_instruction
            (build_resume_prompt (fun _ : unit => "{}") (fun _ => "{}") tt job
               (detect_language text)) = true).
Proof.
  intros H.
  destruct (H (mkJob "Working Student" "Beispiel AG" "Berlin"
                 Scenario.bilingual_posting "https://example.com/job/789"
                 "2025-12-03" "StepStone" "working student software")
              Scenario.bilingual_posting eq_refl eq_refl eq_refl) as [Hde _].
  vm_compute in Hde. discriminate Hde.
Qed.

(** ** Card extraction *)

Section Collect.

(** A loop body that leaves the collected list alone or appends one
    record to it. *)
Context {Card : Type}.
Variable step : list JobRecord -> Card -> list JobRecord.
Hypothesis step_cases :
  forall jobs c, step jobs c = jobs \/ exists r, step jobs c = jobs ++ [r].

Variable P : JobRecord -> Prop.
Hypothesis step_emits :
  forall jobs c r, step jobs c = jobs ++ [r] -> P r.

Lemma step_Forall jobs c : Forall P jobs -> Forall P (step jobs c).
Proof.
  intros Hjobs. destruct (step_cases jobs c) as [Heq|[r Heq]].
  - by rewrite Heq.
  - rewrite Heq. apply Forall_app. split; [done|].
    constructor; [|constructor]. by apply (step_emits jobs c).
Qed.

Lemma foldl_step_Forall cards jobs :
  Forall P jobs -> Forall P (foldl step jobs cards).
Proof.
  revert jobs. induction cards as [|c cards IH]; intros jobs Hjobs; [done|].
  simpl. apply IH. by apply step_Forall.
Qed.

End Collect.

Lemma not_appended {A} (l : list A) (x : A) : l <> l ++ [x].
Proof.
  intros H. apply (f_equal length) in H. rewrite length_app in H.
  simpl in H. lia.
Qed.

Lemma appended_inj {A} (l : list A) (x y : A) : l ++ [x] = l ++ [y] -> x = y.
Proof. intros H. apply app_inv_head in H. by injection H. Qed.

Lemma truthy_nonempty s : Py.truthy s = true -> s <> "".
Proof. by destruct s. Qed.

Ltac emitted H r :=
  first [ by (exfalso; apply (not_appended _ _ H))
        | apply appended_inj in H; subst r ].

Lemma stepstone_step_cases search_term location jobs card :
  StepStone.card_step search_term location jobs card = jobs
  \/ exists r, StepStone.card_step search_term location jobs card = jobs ++ [r].
Proof.
  unfold StepStone.card_step.
  destruct (title_link card) as [link|]; [|by left].
  destruct (link_href link) as [u|]; [|by left].
  destruct (negb (Py.truthy u)); [by left|].
  destruct (already_collected _ jobs); [by left|].
  right. eauto.
Qed.

(** What a StepStone card contributes when it contributes a record. *)
Lemma stepstone_emitted search_term location jobs card r :
  StepStone.card_step search_term location jobs card = jobs ++ [r] ->
  exists link u,
    title_link card = Some link /\ link_href link = Some u
    /\ Py.truthy u = true
    /\ url r = (if Py.startswith "http" u then u
                else "https://www.stepstone.de" +:+ u)
    /\ already_collected (url r) jobs = false
    /\ title r = link_text link
    /\ company r = StepStone.company_of (outerHTML card)
    /\ posted_date r = StepStone.posted_date_of (outerHTML card)
    /\ platform r = "StepStone".
Proof.
  unfold StepStone.card_step. intros H.
  destruct (title_link card) as [link|] eqn:Hlink; [|emitted H r].
  destruct (link_href link) as [u|] eqn:Hhref; [|emitted H r].
  destruct (Py.truthy u) eqn:Hu; simpl negb in H; cbv iota in H; [|emitted H r].
  destruct (already_collected _ jobs) eqn:Hseen; [emitted H r|].
  emitted H r. exists link, u. cbn [url title company posted_date platform].
  by repeat split.
Qed.

Lemma stepstone_url_nonempty search_term location jobs card r :
  StepStone.card_step search_term location jobs card = jobs ++ [r] ->
  url r <> "".
Proof.
  intros (link & u & _ & _ & Hu & -> & _)%stepstone_emitted.
  destruct (Py.startswith "http" u); [by apply truthy_nonempty|done].
Qed.

Lemma linkedin_step_cases search_term location jobs card :
  LinkedIn.card_step search_term location jobs card = jobs
  \/ exists r, LinkedIn.card_step search_term location jobs card = jobs ++ [r].
Proof.
  unfold LinkedIn.card_step.
  repeat match goal with
         | |- context [match ?x with _ => _ end] => destruct x
         end; eauto.
Qed.

(** What a LinkedIn card contributes when it contributes a record. *)
Lemma linkedin_emitted search_term location jobs card r :
  LinkedIn.card_step search_term location jobs card = jobs ++ [r] ->
  LinkedIn.view_link card <> None
  /\ url r <> ""
  /\ already_collected (url r) jobs = false
  /\ description r = ""
  /\ company r = LinkedIn.company_of card
  /\ posted_date r = LinkedIn.posted_date_of card
  /\ platform r = "LinkedIn".
Proof.
  unfold LinkedIn.card_step. intros H.
  destruct (match find_tag "h3" _ card with Some e => Some e | None => _ end)
    as [title_elem|]; [|emitted H r].
  destruct (LinkedIn.view_link card) as [link_elem|]; [|emitted H r].
  destruct (tag_href link_elem) as [u|]; [|emitted H r].
  match type of H with
  | context [match ?x with Some _ => _ | None => _ end] => destruct x as [u'|] eqn:Hu'
  end; [|emitted H r].
  destruct (Py.truthy u') eqn:Ht; simpl andb in H; cbv iota in H; [|emitted H r].
  destruct (already_collected u' jobs) eqn:Hseen; simpl negb in H; cbv iota in H;
    [emitted H r|].
  emitted H r. simpl. repeat split; try done.
  by apply truthy_nonempty.
Qed.

(** ** The page loops *)

Section Loops.

Variable P : JobRecord -> Prop.
Variables search_term location : string.

Lemma stepstone_pages_Forall pages jobs :
  (forall jobs c r,
      StepStone.card_step search_term location jobs c = jobs ++ [r] -> P r) ->
  Forall P jobs ->
  Forall P (StepStone.pages_loop search_term location pages jobs).
Proof.
  intros Hemit. revert jobs.
  induction pages as [|page pages IH]; intros jobs Hjobs; [done|].
  destruct page as [[|c cards]|]; simpl; try done.
  apply IH.
  apply (foldl_step_Forall _ (stepstone_step_cases search_term location) P Hemit
           cards).
  by apply (step_Forall _ (stepstone_step_cases search_term location) P Hemit).
Qed.

Lemma linkedin_pages_Forall pages jobs :
  (forall jobs c r,
      LinkedIn.card_step search_term location jobs c = jobs ++ [r] -> P r) ->
  Forall P jobs ->
  Forall P (LinkedIn.pages_loop search_term location pages jobs).
Proof.
  intros Hemit. revert jobs.
  induction pages as [|page pages IH]; intros jobs Hjobs; [done|].
  destruct page as [soup|]; simpl; [|done].
  destruct (find_all_nodes "div" _ soup) as [|n ns].
  - destruct (find_all_nodes "li" _ soup) as [|n ns]; [done|].
    apply IH.
    by apply (foldl_step_Forall _ (linkedin_step_cases search_term location) P Hemit).
  - apply IH.
    by apply (foldl_step_Forall _ (linkedin_step_cases search_term location) P Hemit).
Qed.

End Loops.

(** X16. The orchestrator hands on, per platform, the lists of all
    search terms one after the other, in the order of the terms. *)
Lemma scrape_all_platforms_concat driver search_terms location max_pages :
  scrape_all_platforms driver search_terms location max_pages
  = (mjoin ((fun t => scrape_stepstone driver t location max_pages) <$> search_terms),
     mjoin ((fun t => scrape_linkedin driver t location max_pages) <$> search_terms)).
Proof.
  unfold scrape_all_platforms.
  set (f := fun acc t => _).
  assert (Hgen : forall terms acc,
    foldl f acc terms
    = (fst acc ++ mjoin ((fun t => scrape_stepstone driver t location max_pages) <$> terms),
       snd acc ++ mjoin ((fun t => scrape_linkedin driver t location max_pages) <$> terms))).
  { induction terms as [|t terms IH]; intros [ss li].
    - simpl. by rewrite !app_nil_r.
    - cbn [foldl]. rewrite IH. unfold f. simpl. by rewrite <- !app_assoc. }
  apply (Hgen search_terms ([], [])).
Qed.

(** ** Claims about extraction *)

(** C6. A card without a usable link leaves the collected list as it
    is, on both platforms, and no scraper ever returns a record whose
    URL is empty. *)
Theorem skip_on_missing_key search_term location jobs (article : Article)
    (card : list Tag) :
  ((title_link article ≫= link_href = None
    \/ title_link article ≫= link_href = Some "") ->
   StepStone.card_step search_term location jobs article = jobs)
  /\ (LinkedIn.view_link card = None ->
      LinkedIn.card_step search_term location jobs card = jobs)
  /\ (forall driver max_pages,
        Forall (fun r => url r <> "")
          (scrape_stepstone driver search_term location max_pages))
  /\ (forall driver max_pages,
        Forall (fun r => url r <> "")
          (scrape_linkedin driver search_term location max_pages)).
Proof.
  split; [|split; [|split]].
  - intros Hlink.
    destruct (stepstone_step_cases search_term location jobs article)
      as [Heq|[r Heq]]; [done|].
    exfalso.
    apply stepstone_emitted in Heq as (link & u & Hl & Hh & Hu & _).
    rewrite Hl in Hlink. simpl in Hlink. rewrite Hh in Hlink.
    destruct Hlink as [Hlink|Hlink]; [done|].
    injection Hlink as ->. done.
  - intros Hnone.
    destruct (linkedin_step_cases search_term location jobs card)
      as [Heq|[r Heq]]; [done|].
    by apply linkedin_emitted in Heq as [Hsome _].
  - intros driver max_pages. unfold scrape_stepstone.
    apply stepstone_pages_Forall; [|constructor].
    intros jobs' c r. apply stepstone_url_nonempty.
  - intros driver max_pages. unfold scrape_linkedin.
    apply linkedin_pages_Forall; [|constructor].
    intros jobs' c r Heq. by apply linkedin_emitted in Heq as (_ & Hurl & _).
Qed.

Lemma skip_on_missing_key_witness :
  StepStone.card_step "werkstudent IT" "Berlin" []
    {| title_link := None; outerHTML := [Scenario.span [] "Beispiel AG"] |} = []
  /\ LinkedIn.card_step "werkstudent IT" "Berlin" []
       [Scenario.heading ["base-search-card__title"] "Working Student"] = [].
Proof.
  destruct (skip_on_missing_key "werkstudent IT" "Berlin" []
              {| title_link := None; outerHTML := [Scenario.span [] "Beispiel AG"] |}
              [Scenario.heading ["base-search-card__title"] "Working Student"])
    as (Hs & Hl & _).
  split.
  - apply Hs. left. reflexivity.
  - apply Hl. reflexivity.
Defined.

(** C7. A StepStone card with a usable, not yet collected link and no
    span of a company class yields a record: its company is the text of
    the second span when the card has two spans or more, and "N/A"
    when it has fewer. *)
Theorem stepstone_company_fallback search_term location jobs card link u :
  title_link card = Some link ->
  link_href link = Some u ->
  Py.truthy u = true ->
  already_collected
    (if Py.startswith "http" u then u else "https://www.stepstone.de" +:+ u)
    jobs = false ->
  find_tag "span" (class_has_lower "company") (outerHTML card) = None ->
  exists r,
    StepStone.card_step search_term location jobs card = jobs ++ [r]
    /\ (forall s1 s2 rest,
          find_all "span" any_tag (outerHTML card) = s1 :: s2 :: rest ->
          company r = tag_text s2)
    /\ (length (find_all "span" any_tag (outerHTML card)) < 2 ->
        company r = "N/A").
Proof.
  intros Hlink Hhref Hu Hseen Hnone.
  unfold StepStone.card_step.
  rewrite Hlink, Hhref, Hu. simpl negb. cbv iota. rewrite Hseen.
  eexists. split; [reflexivity|].
  cbn [company]. unfold StepStone.company_of. rewrite Hnone.
  split.
  - intros s1 s2 rest ->. simpl. done.
  - intros Hlen. rewrite bool_decide_eq_false_2; [done|lia].
Qed.

Lemma stepstone_company_fallback_witness :
  exists r,
    StepStone.card_step "werkstudent IT" "Berlin" [] Scenario.shared_posting = [r]
    /\ company r = "Beispiel AG".
Proof.
  destruct (stepstone_company_fallback "werkstudent IT" "Berlin" []
              Scenario.shared_posting
              {| link_text := "Werkstudent IT (m/w/d)";
                 link_href := Some "https://www.stepstone.de/stellenangebote--Werkstudent-IT-Berlin--123.html" |}
              "https://www.stepstone.de/stellenangebote--Werkstudent-IT-Berlin--123.html"
              eq_refl eq_refl eq_refl eq_refl eq_refl)
    as (r & Hstep & Hsecond & _).
  exists r. split; [exact Hstep|].
  exact (Hsecond (Scenario.span [] "Werkstudent IT (m/w/d)")
                 (Scenario.span [] "Beispiel AG") [] eq_refl).
Defined.

(** C8. For a record taken from a card without a [time] tag the posted
    date is "N/A" on StepStone and "24h" on LinkedIn. *)
Theorem undated_card_posted_date search_term location jobs r :
  (forall card : Article,
      find_tag "time" any_tag (outerHTML card) = None ->
      StepStone.card_step search_term location jobs card = jobs ++ [r] ->
      posted_date r = "N/A")
  /\ (forall card : list Tag,
        find_tag "time" any_tag card = None ->
        LinkedIn.card_step search_term location jobs card = jobs ++ [r] ->
        posted_date r = "24h").
Proof.
  split.
  - intros card Hnone Hstep.
    apply stepstone_emitted in Hstep as (link & u & H).
    destruct H as (_ & _ & _ & _ & _ & _ & _ & -> & _).
    unfold StepStone.posted_date_of. by rewrite Hnone.
  - intros card Hnone Hstep.
    apply linkedin_emitted in Hstep as (_ & _ & _ & _ & _ & -> & _).
    unfold LinkedIn.posted_date_of. by rewrite Hnone.
Qed.

Lemma undated_card_posted_date_witness :
  posted_date
    {| title := "Werkstudent IT (m/w/d)"; company := "Beispiel AG";
       location := "Berlin"; description := "";
       url := "https://www.stepstone.de/stellenangebote--Werkstudent-IT-Berlin--123.html";
       posted_date := "N/A"; platform := "StepStone";
       search_term := "werkstudent IT" |} = "N/A".
Proof.
  refine (proj1 (undated_card_posted_date "werkstudent IT" "Berlin" [] _)
            Scenario.shared_posting _ _); reflexivity.
Defined.

(** C8, as the specification words it: a LinkedIn card without a [time]
    tag yields a record, and its posted date is "24h", not "N/A". *)
Lemma linkedin_undated_card_is_24h :
  find_tag "time" any_tag Scenario.undated_card = None
  /\ (posted_date <$>
        LinkedIn.card_step "working student software" "Berlin" []
          Scenario.undated_card) = ["24h"]
  /\ ~ Forall (fun r => posted_date r = "N/A")
         (scrape_linkedin Scenario.linkedin_driver
            "working student software" "Berlin" 2).
Proof.
  split; [reflexivity|]. split; [reflexivity|].
  intros H. vm_compute in H. inversion H as [|?? Hhead _]. discriminate Hhead.
Qed.

(** C10. Every record the LinkedIn scraper returns has the empty
    description, and language detection on it answers "English", as it
    does whenever the German count is not strictly the larger one. *)
Theorem linkedin_description_empty driver search_term location max_pages r :
  r ∈ scrape_linkedin driver search_term location max_pages ->
  description r = ""
  /\ detect_language (description r) = "English"
  /\ (forall text,
        german_score (Py.lower text) <= english_score (Py.lower text) ->
        detect_language text = "English").
Proof.
  intros Hr.
  assert (Hdesc : description r = "").
  { revert r Hr. apply Forall_forall. unfold scrape_linkedin.
    apply linkedin_pages_Forall; [|constructor].
    intros jobs c r Heq.
    by apply linkedin_emitted in Heq as (_ & _ & _ & Hd & _). }
  split; [done|]. split.
  - rewrite Hdesc. reflexivity.
  - apply @detect_language_english.
Qed.

Lemma linkedin_description_empty_witness :
  let r := {| title := "Working Student Software"; company := "N/A";
              location := "Berlin"; description := "";
              url := "https://www.linkedin.com/jobs/view/42";
              posted_date := "24h"; platform := "LinkedIn";
              search_term := "working student software" |} in
  description r = "" /\ detect_language (description r) = "English".
Proof.
  intros r.
  destruct (linkedin_description_empty Scenario.linkedin_driver
              "working student software" "Berlin" 2 r) as (Hd & He & _).
  - vm_compute. left.
  - split; [exact Hd | exact He].
Defined.

(** ** The whole run *)

(** C4. With a posting that both search keywords find on StepStone, the
    orchestrator returns it once per keyword and a run on a new file
    persists it in two rows. *)
Theorem overlapping_terms_persist_twice :
  let scraped := fst (scrape_all_platforms Scenario.overlapping_driver
                        search_keywords "Berlin" 2) in
  let wb := main Scenario.overlapping_driver "2025-12-03" None in
  (url <$> scraped)
   = [ "https://www.stepstone.de/stellenangebote--Werkstudent-IT-Berlin--123.html";
       "https://www.stepstone.de/stellenangebote--Werkstudent-IT-Berlin--123.html" ]
  /\ (search_term <$> scraped) = [ "werkstudent IT"; "working student software" ]
  /\ urls (sheet wb "StepStone")
     = [ Some "https://www.stepstone.de/stellenangebote--Werkstudent-IT-Berlin--123.html";
         Some "https://www.stepstone.de/stellenangebote--Werkstudent-IT-Berlin--123.html" ].
Proof. vm_compute. done. Qed.

(** ** Worked scenarios *)

Example detect_german_scenario :
  detect_language "und der Entwicklung" = "German".
Proof. reflexivity. Qed.

Example detect_upper_umlaut : german_score (Py.lower "FÜR") = 1.
Proof. reflexivity. Qed.

Example detect_bilingual_scores :
  german_score (Py.lower Scenario.bilingual_posting) = 2
  /\ english_score (Py.lower Scenario.bilingual_posting) = 5.
Proof. split; reflexivity. Qed.

(** A sheet that holds URL "a" and a batch with "a" and "b": one row is
    added and the sheet has two rows. *)
Example merge_adds_only_new_url :
  let ja := mkJob "Dev" "ACME" "Berlin" "" "a" "N/A" "StepStone" "werkstudent IT" in
  let jb := mkJob "Ops" "Initech" "Berlin" "" "b" "N/A" "StepStone" "werkstudent IT" in
  let wb1 := append_jobs_to_excel "2025-12-02" [ja] "StepStone"
               (create_excel_if_not_exists None) in
  let wb2 := append_jobs_to_excel "2025-12-03" [ja; jb] "StepStone" wb1 in
  urls (sheet wb2 "StepStone") = [Some "a"; Some "b"]
  /\ Date_Added <$> sheet wb2 "StepStone" = [Some "2025-12-02"; Some "2025-12-03"].
Proof. vm_compute. done. Qed.

(** * Further properties of the code *)

(** ** Creating the workbook *)

(** On an existing file every sheet other than "Jobs" is left as it
    is: present sheets keep their rows and missing sheets stay missing. *)
Theorem create_excel_keeps_sheets (wb : Workbook) (sheet_name : string) :
  sheet_name <> "Jobs" ->
  create_excel_if_not_exists (Some wb) !! sheet_name = wb !! sheet_name.
Proof. intros Hne. simpl. by apply lookup_delete_ne. Qed.

Lemma create_excel_keeps_sheets_witness :
  create_excel_if_not_exists
    (Some (to_excel [Fixture.old_row] "StepStone" (to_excel [] "Jobs" ∅)))
  !! "StepStone" = Some [Fixture.old_row].
Proof.
  rewrite (create_excel_keeps_sheets _ "StepStone"); [|discriminate].
  reflexivity.
Defined.

(** ** More on the merge *)

(** X2. A merge for one platform leaves every other sheet of the
    workbook as it is. *)
Theorem merge_frame today new_jobs (platform other : string) (wb : Workbook) :
  platform <> other ->
  append_jobs_to_excel today new_jobs platform wb !! other = wb !! other.
Proof.
  intros Hne. unfold append_jobs_to_excel.
  destruct new_jobs; [done|].
  repeat match goal with |- context [if ?b then _ else _] => destruct b end;
    try done; unfold to_excel; by rewrite lookup_insert_ne.
Qed.

Lemma merge_frame_witness :
  append_jobs_to_excel "2025-12-03" [Fixture.job_b] "StepStone"
    (to_excel [Fixture.old_row] "LinkedIn" ∅) !! "LinkedIn"
  = Some [Fixture.old_row].
Proof.
  rewrite (merge_frame _ _ "StepStone" "LinkedIn"); [|discriminate].
  reflexivity.
Defined.

Lemma url_set_app (df1 df2 : list Row) :
  url_set (df1 ++ df2) = url_set df1 ∪ url_set df2.
Proof. unfold url_set. by rewrite omap_app, list_to_set_app_L. Qed.

Lemma url_set_new_rows today (jobs : list JobRecord) :
  url_set (new_row today <$> jobs) = list_to_set (url <$> jobs).
Proof.
  unfold url_set. f_equal.
  induction jobs as [|j jobs IH]; [done|]. csimpl. by f_equal.
Qed.




(** ** More on the scrapers *)

(** The record a StepStone card contributes, field by field. *)
Lemma stepstone_emitted_record search_term location jobs card r :
  StepStone.card_step search_term location jobs card = jobs ++ [r] ->
  exists link u,
    title_link card = Some link /\ link_href link = Some u
    /\ r = {| title := link_text link;
              company := StepStone.company_of (outerHTML card);
              location := StepStone.location_of location (outerHTML card);
              description :=
                Py.slice_to 500 (StepStone.description_of (outerHTML card));
              url := (if Py.startswith "http" u then u
                      else "https://www.stepstone.de" +:+ u);
              posted_date := StepStone.posted_date_of (outerHTML card);
              platform := "StepStone";
              search_term := search_term |}.
Proof.
  unfold StepStone.card_step. intros H.
  destruct (title_link card) as [link|] eqn:Hlink; [|emitted H r].
  destruct (link_href link) as [u|] eqn:Hhref; [|emitted H r].
  destruct (Py.truthy u) eqn:Hu; simpl negb in H; cbv iota in H; [|emitted H r].
  destruct (already_collected _ jobs) eqn:Hseen; [emitted H r|].
  emitted H r. by exists link, u.
Qed.

(** The record a LinkedIn card contributes, field by field. *)
Lemma linkedin_emitted_record search_term location jobs card r :
  LinkedIn.card_step search_term location jobs card = jobs ++ [r] ->
  exists title_elem link_elem u,
    match find_tag "h3" (class_has "base-search-card__title") card with
    | Some e => Some e
    | None => LinkedIn.view_link card
    end = Some title_elem
    /\ LinkedIn.view_link card = Some link_elem
    /\ tag_href link_elem = Some u
    /\ r = {| title := tag_text title_elem;
              company := LinkedIn.company_of card;
              location := LinkedIn.location_of location card;
              description := "";
              url := (if Py.startswith "http" u then u
                      else "https://www.linkedin.com" +:+ u);
              posted_date := LinkedIn.posted_date_of card;
              platform := "LinkedIn";
              search_term := search_term |}.
Proof.
  unfold LinkedIn.card_step. intros H.
  destruct (match find_tag "h3" _ card with Some e => Some e | None => _ end)
    as [title_elem|] eqn:Htitle; [|emitted H r].
  destruct (LinkedIn.view_link card) as [link_elem|] eqn:Hview; [|emitted H r].
  destruct (tag_href link_elem) as [u|] eqn:Hhref; [|emitted H r].
  destruct (Py.truthy u) eqn:Hu;
    destruct (Py.startswith "http" u) eqn:Hhttp; simpl in H;
    rewrite ?Hu in H; simpl in H; try (emitted H r; fail).
  - destruct (already_collected _ jobs); simpl in H; [emitted H r|].
    emitted H r. exists title_elem, link_elem, u. by rewrite Hhttp.
  - destruct (already_collected _ jobs); simpl in H; [emitted H r|].
    emitted H r. exists title_elem, link_elem, u. by rewrite Hhttp.
Qed.

Lemma already_collected_false job_url (jobs : list JobRecord) :
  already_collected job_url jobs = false <-> job_url ∉ url <$> jobs.
Proof.
  unfold already_collected. induction jobs as [|j jobs IH].
  - split; [|done]. intros _ H. inversion H.
  - cbn [existsb]. rewrite orb_false_iff, IH, fmap_cons, not_elem_of_cons.
    rewrite String.eqb_neq. split; intros [H1 H2]; split; auto.
Qed.

Section LoopInvariant.

(** A property of the collected list that every card keeps is kept by
    the page loops. *)
Variable Inv : list JobRecord -> Prop.
Variables search_term location : string.

Lemma stepstone_pages_inv pages jobs :
  (forall jobs c, Inv jobs ->
      Inv (StepStone.card_step search_term location jobs c)) ->
  Inv jobs -> Inv (StepStone.pages_loop search_term location pages jobs).
Proof.
  intros Hstep. revert jobs.
  induction pages as [|page pages IH]; intros jobs Hjobs; [done|].
  destruct page as [[|c cards]|]; simpl; try done.
  apply IH. apply (Hstep _ c) in Hjobs. revert Hjobs.
  generalize (StepStone.card_step search_term location jobs c).
  induction cards as [|c' cards IHc]; intros jobs' Hjobs'; [done|].
  simpl. apply IHc. by apply Hstep.
Qed.

Lemma linkedin_pages_inv pages jobs :
  (forall jobs c, Inv jobs ->
      Inv (LinkedIn.card_step search_term location jobs c)) ->
  Inv jobs -> Inv (LinkedIn.pages_loop search_term location pages jobs).
Proof.
  intros Hstep.
  assert (Hfold : forall cards jobs, Inv jobs ->
            Inv (foldl (LinkedIn.card_step search_term location) jobs cards)).
  { induction cards as [|c cards IHc]; intros jobs' Hjobs'; [done|].
    simpl. apply IHc. by apply Hstep. }
  revert jobs.
  induction pages as [|page pages IH]; intros jobs Hjobs; [done|].
  destruct page as [soup|]; simpl; [|done].
  destruct (find_all_nodes "div" _ soup) as [|n ns].
  - destruct (find_all_nodes "li" _ soup) as [|n ns]; [done|].
    apply IH. by apply Hfold.
  - apply IH. by apply Hfold.
Qed.

End LoopInvariant.

(** X9. Within one call, neither scraper returns two records with the
    same URL. *)
Theorem scrapers_collect_each_url_once driver search_term location max_pages :
  NoDup (url <$> scrape_stepstone driver search_term location max_pages)
  /\ NoDup (url <$> scrape_linkedin driver search_term location max_pages).
Proof.
  split.
  - unfold scrape_stepstone.
    apply (stepstone_pages_inv (fun jobs => NoDup (url <$> jobs)));
      [|constructor].
    intros jobs c Hjobs.
    destruct (stepstone_step_cases search_term location jobs c)
      as [->|[r Heq]]; [done|].
    rewrite Heq, fmap_app. apply NoDup_app. split; [done|].
    split; [|apply NoDup_singleton].
    apply stepstone_emitted in Heq as (_ & _ & _ & _ & _ & _ & Hseen & _).
    apply already_collected_false in Hseen.
    intros x Hx Hx'. apply list_elem_of_singleton in Hx'. by subst x.
  - unfold scrape_linkedin.
    apply (linkedin_pages_inv (fun jobs => NoDup (url <$> jobs)));
      [|constructor].
    intros jobs c Hjobs.
    destruct (linkedin_step_cases search_term location jobs c)
      as [->|[r Heq]]; [done|].
    rewrite Heq, fmap_app. apply NoDup_app. split; [done|].
    split; [|apply NoDup_singleton].
    apply linkedin_emitted in Heq as (_ & _ & Hseen & _).
    apply already_collected_false in Hseen.
    intros x Hx Hx'. apply list_elem_of_singleton in Hx'. by subst x.
Qed.

(** X10. Every record a scraper returns has a URL that starts with
    "http", carries the name of its platform and the search term of the
    call. *)
Theorem scraped_records_are_tagged driver term location max_pages :
  Forall (fun r => Py.startswith "http" (url r) = true
                   /\ platform r = "StepStone"
                   /\ search_term r = term)
    (scrape_stepstone driver term location max_pages)
  /\ Forall (fun r => Py.startswith "http" (url r) = true
                      /\ platform r = "LinkedIn"
                      /\ search_term r = term)
       (scrape_linkedin driver term location max_pages).
Proof.
  split.
  - unfold scrape_stepstone. apply stepstone_pages_Forall; [|constructor].
    intros jobs c r (link & u & _ & _ & ->)%stepstone_emitted_record.
    cbn [url platform search_term]. split; [|done].
    by destruct (Py.startswith "http" u) eqn:Hhttp.
  - unfold scrape_linkedin. apply linkedin_pages_Forall; [|constructor].
    intros jobs c r (te & le & u & _ & _ & _ & ->)%linkedin_emitted_record.
    cbn [url platform search_term]. split; [|done].
    by destruct (Py.startswith "http" u) eqn:Hhttp.
Qed.

(** ** Pagination *)

Lemma stepstone_pages_extend search_term location pages jobs :
  jobs `prefix_of` StepStone.pages_loop search_term location pages jobs.
Proof.
  apply (stepstone_pages_inv (fun js => jobs `prefix_of` js)); [|done].
  intros js c Hjs.
  destruct (stepstone_step_cases search_term location js c) as [->|[r ->]];
    [done|by apply prefix_app_r].
Qed.

Lemma linkedin_pages_extend search_term location pages jobs :
  jobs `prefix_of` LinkedIn.pages_loop search_term location pages jobs.
Proof.
  apply (linkedin_pages_inv (fun js => jobs `prefix_of` js)); [|done].
  intros js c Hjs.
  destruct (linkedin_step_cases search_term location js c) as [->|[r ->]];
    [done|by apply prefix_app_r].
Qed.

Lemma stepstone_pages_app search_term location before after jobs :
  StepStone.pages_loop search_term location before jobs
    `prefix_of` StepStone.pages_loop search_term location (before ++ after) jobs.
Proof.
  revert jobs. induction before as [|page before IH]; intros jobs.
  - apply stepstone_pages_extend.
  - destruct page as [[|c cards]|]; simpl; by try apply IH.
Qed.

Lemma linkedin_pages_app search_term location before after jobs :
  LinkedIn.pages_loop search_term location before jobs
    `prefix_of` LinkedIn.pages_loop search_term location (before ++ after) jobs.
Proof.
  revert jobs. induction before as [|page before IH]; intros jobs.
  - apply linkedin_pages_extend.
  - destruct page as [soup|]; simpl; [|done].
    destruct (find_all_nodes "div" _ soup) as [|n ns].
    + destruct (find_all_nodes "li" _ soup) as [|n ns]; [done|]. apply IH.
    + apply IH.
Qed.

(** X11. Raising [max_pages] only appends: what a scraper returns for
    fewer pages is the beginning of what it returns for more. *)
Theorem more_pages_only_append driver search_term location (n m : nat) :
  n <= m ->
  scrape_stepstone driver search_term location n
    `prefix_of` scrape_stepstone driver search_term location m
  /\ scrape_linkedin driver search_term location n
       `prefix_of` scrape_linkedin driver search_term location m.
Proof.
  intros Hnm. replace m with (n + (m - n)) by lia.
  unfold scrape_stepstone, scrape_linkedin.
  rewrite <- !take_take_drop. split.
  - apply stepstone_pages_app.
  - apply linkedin_pages_app.
Qed.

Lemma more_pages_only_append_witness :
  scrape_stepstone Scenario.overlapping_driver "werkstudent IT" "Berlin" 1
    `prefix_of`
  scrape_stepstone Scenario.overlapping_driver "werkstudent IT" "Berlin" 2.
Proof.
  refine (proj1 (more_pages_only_append Scenario.overlapping_driver
                   "werkstudent IT" "Berlin" 1 2 _)).
  lia.
Defined.

Lemma stepstone_pages_stop search_term location before page after jobs :
  page = None \/ page = Some [] ->
  StepStone.pages_loop search_term location (before ++ page :: after) jobs
  = StepStone.pages_loop search_term location before jobs.
Proof.
  intros Hpage. revert jobs.
  induction before as [|p before IH]; intros jobs.
  - by destruct Hpage as [->| ->].
  - destruct p as [[|c cards]|]; simpl; by try apply IH.
Qed.

Lemma linkedin_pages_stop search_term location before page after jobs :
  page = None \/ (exists soup, page = Some soup /\ no_cards soup) ->
  LinkedIn.pages_loop search_term location (before ++ page :: after) jobs
  = LinkedIn.pages_loop search_term location before jobs.
Proof.
  intros Hpage. revert jobs.
  induction before as [|p before IH]; intros jobs.
  - destruct Hpage as [->|(soup & -> & Hdiv & Hli)]; [done|].
    simpl. by rewrite Hdiv, Hli.
  - destruct p as [soup|]; simpl; [|done].
    destruct (find_all_nodes "div" _ soup) as [|n ns].
    + destruct (find_all_nodes "li" _ soup) as [|n ns]; [done|]. apply IH.
    + apply IH.
Qed.

Lemma take_through {A} (l : list A) (k n : nat) (x : A) :
  l !! k = Some x -> k < n ->
  exists rest, take n l = take k l ++ x :: rest.
Proof.
  intros Hk Hlt. replace n with (k + S (n - S k)) by lia.
  rewrite <- take_take_drop. rewrite (drop_S l x k Hk). simpl. eauto.
Qed.

(** X12. Pagination stops at the first page that fails to load or
    shows no cards: with that page at index [k], any [max_pages] of at
    least [k] gives what [max_pages = k] gives. *)
Theorem pagination_stops_at_failed_page driver search_term location (k n : nat) :
  k <= n ->
  (forall page,
      stepstone_pages driver search_term location !! k = Some page ->
      page = None \/ page = Some [] ->
      scrape_stepstone driver search_term location n
      = scrape_stepstone driver search_term location k)
  /\ (forall page,
        linkedin_pages driver search_term location !! k = Some page ->
        page = None \/ (exists soup, page = Some soup /\ no_cards soup) ->
        scrape_linkedin driver search_term location n
        = scrape_linkedin driver search_term location k).
Proof.
  intros Hkn. split; intros page Hk Hpage.
  - destruct (decide (k = n)) as [->|Hne]; [done|].
    unfold scrape_stepstone.
    destruct (take_through _ k n page Hk ltac:(lia)) as [rest ->].
    by apply stepstone_pages_stop.
  - destruct (decide (k = n)) as [->|Hne]; [done|].
    unfold scrape_linkedin.
    destruct (take_through _ k n page Hk ltac:(lia)) as [rest ->].
    by apply linkedin_pages_stop.
Qed.

Lemma pagination_stops_at_failed_page_witness :
  scrape_stepstone Fixture.two_then_timeout "werkstudent IT" "Berlin" 5
  = scrape_stepstone Fixture.two_then_timeout "werkstudent IT" "Berlin" 1.
Proof.
  refine (proj1 (pagination_stops_at_failed_page Fixture.two_then_timeout
                   "werkstudent IT" "Berlin" 1 5 _) None _ _).
  - lia.
  - reflexivity.
  - left. reflexivity.
Defined.

(** ** Field fallbacks *)

(** X13. When the card has a [time] tag, the posted date of its record
    is the tag's [datetime] attribute, and "N/A" when the tag has none,
    on both platforms. *)
Theorem dated_card_posted_date search_term location jobs r (e : Tag) :
  (forall card : Article,
      find_tag "time" any_tag (outerHTML card) = Some e ->
      StepStone.card_step search_term location jobs card = jobs ++ [r] ->
      posted_date r = match tag_datetime e with Some d => d | None => "N/A" end)
  /\ (forall card : list Tag,
        find_tag "time" any_tag card = Some e ->
        LinkedIn.card_step search_term location jobs card = jobs ++ [r] ->
        posted_date r = match tag_datetime e with Some d => d | None => "N/A" end).
Proof.
  split.
  - intros card He (link & u & _ & _ & ->)%stepstone_emitted_record.
    cbn [posted_date]. unfold StepStone.posted_date_of. by rewrite He.
  - intros card He (te & le & u & _ & _ & _ & ->)%linkedin_emitted_record.
    cbn [posted_date]. unfold LinkedIn.posted_date_of. by rewrite He.
Qed.

Lemma dated_card_posted_date_witness :
  posted_date Fixture.bare_time_record = "N/A".
Proof.
  exact (proj2 (dated_card_posted_date "werkstudent IT" "Berlin" []
                  Fixture.bare_time_record Fixture.bare_time)
           Fixture.bare_time_card eq_refl eq_refl).
Defined.

(** X14. The title of a LinkedIn record is the text of the title
    heading, or of the job link when there is no such heading; its
    company is the text of the subtitle heading, else of a link of a
    company class, else "N/A". *)
Theorem linkedin_title_company_fallback search_term location jobs card r :
  LinkedIn.card_step search_term location jobs card = jobs ++ [r] ->
  (forall h, find_tag "h3" (class_has "base-search-card__title") card = Some h ->
             title r = tag_text h)
  /\ (find_tag "h3" (class_has "base-search-card__title") card = None ->
      exists link, LinkedIn.view_link card = Some link /\ title r = tag_text link)
  /\ (forall h, find_tag "h4" (class_has "base-search-card__subtitle") card = Some h ->
                company r = tag_text h)
  /\ (find_tag "h4" (class_has "base-search-card__subtitle") card = None ->
      (forall a, find_tag "a" (class_has_lower "company") card = Some a ->
                 company r = tag_text a)
      /\ (find_tag "a" (class_has_lower "company") card = None ->
          company r = "N/A")).
Proof.
  intros (te & le & u & Hte & Hle & _ & ->)%linkedin_emitted_record.
  cbn [title company]. unfold LinkedIn.company_of.
  split; [|split; [|split]].
  - intros h Hh. rewrite Hh in Hte. by injection Hte as ->.
  - intros Hnone. rewrite Hnone, Hle in Hte. injection Hte as ->. eauto.
  - intros h Hh. by rewrite Hh.
  - intros Hnone. rewrite Hnone. split.
    + intros a Ha. by rewrite Ha.
    + intros Ha. by rewrite Ha.
Qed.

Lemma linkedin_title_company_fallback_witness :
  (exists link, LinkedIn.view_link Fixture.bare_time_card = Some link
                /\ title Fixture.bare_time_record = tag_text link)
  /\ company Fixture.bare_time_record = "N/A".
Proof.
  destruct (linkedin_title_company_fallback "werkstudent IT" "Berlin" []
              Fixture.bare_time_card Fixture.bare_time_record eq_refl)
    as (_ & Htitle & _ & Hcompany).
  split.
  - exact (Htitle eq_refl).
  - exact (proj2 (Hcompany eq_refl) eq_refl).
Defined.

(** X15. When the card has no span of a location class, the location of
    its record is the location the scraper was called with, on both
    platforms; otherwise it is the text of the first such span. *)
Theorem location_fallback search_term (place : string) jobs r :
  (forall card : Article,
      StepStone.card_step search_term place jobs card = jobs ++ [r] ->
      location r
      = match find_tag "span" (class_has_lower "location") (outerHTML card) with
        | Some e => tag_text e
        | None => place
        end)
  /\ (forall card : list Tag,
        LinkedIn.card_step search_term place jobs card = jobs ++ [r] ->
        location r
        = match find_tag "span" (class_has "job-search-card__location") card with
          | Some e => tag_text e
          | None => place
          end).
Proof.
  split.
  - by intros card (link & u & _ & _ & ->)%stepstone_emitted_record.
  - by intros card (te & le & u & _ & _ & _ & ->)%linkedin_emitted_record.
Qed.

Lemma location_fallback_witness :
  location Fixture.bare_time_record = "Berlin".
Proof.
  exact (proj2 (location_fallback "werkstudent IT" "Berlin" []
                  Fixture.bare_time_record)
           Fixture.bare_time_card eq_refl).
Defined.

(** ** More on the whole run *)

Lemma added_rows_covered today (df : list Row) (jobs : list JobRecord) :
  (jobs <> [] -> df <> []) ->
  (forall j, j ∈ jobs -> Some (url j) ∈ urls df) ->
  added_rows today df jobs = [].
Proof.
  intros Hne Hall. unfold added_rows.
  destruct jobs as [|j0 jobs]; [by destruct (df_empty df)|].
  destruct df as [|r0 df]; [by destruct Hne|].
  simpl df_empty; cbv iota. apply filter_none.
  intros r (j & -> & Hj)%list_elem_of_fmap Hr.
  apply isin_false in Hr. apply Hr. by apply Hall.
Qed.

Lemma added_rows_after_merge today today' jobs platform (wb : Workbook) :
  added_rows today'
    (sheet (append_jobs_to_excel today jobs platform wb) platform) jobs = [].
Proof.
  apply added_rows_covered.
  - intros Hne Hnil. destruct jobs as [|j0 jobs]; [done|].
    pose proof (merge_covers today (j0 :: jobs) platform wb j0 ltac:(left)) as Hc.
    rewrite Hnil in Hc. inversion Hc.
  - intros j Hj. by apply merge_covers.
Qed.

(** ** More on language detection and the prompt *)

Lemma lower_byte_idem (st : bool) (c : ascii) :
  Py.lower_byte st (Py.lower_byte st c) = Py.lower_byte st c
  /\ (N_of_ascii (Py.lower_byte st c) =? 195)%N = (N_of_ascii c =? 195)%N.
Proof.
  destruct st; destruct c as [[] [] [] [] [] [] [] []]; split; reflexivity.
Qed.

Lemma lower_from_idem (st : bool) (s : string) :
  Py.lower_from st (Py.lower_from st s) = Py.lower_from st s.
Proof.
  revert st. induction s as [|c s IH]; intros st; [done|].
  simpl. destruct (lower_byte_idem st c) as [-> ->]. by rewrite IH.
Qed.

(** X19. Detection does not depend on letter case: a description and
    its lower-case form get the same answer, and so do any two
    descriptions with the same lower-case form. *)
Theorem detect_language_ignores_case (text : string) :
  detect_language (Py.lower text) = detect_language text
  /\ (forall other, Py.lower other = Py.lower text ->
                    detect_language other = detect_language text).
Proof.
  split.
  - unfold detect_language, Py.lower. by rewrite lower_from_idem.
  - intros other Heq. unfold detect_language. by rewrite Heq.
Qed.

Lemma detect_language_ignores_case_witness :
  detect_language "UND DER ENTWICKLUNG" = detect_language "und der Entwicklung".
Proof.
  apply (proj2 (detect_language_ignores_case "und der Entwicklung")).
  reflexivity.
Defined.

(** X20. A description in which no German marker word occurs is never
    detected as German. *)
Theorem no_german_marker_is_english (text : string) :
  (forall w, w ∈ german_markers -> Py.contains w (Py.lower text) = false) ->
  detect_language text = "English".
Proof.
  intros Hnone. apply @detect_language_english.
  unfold german_score, score. rewrite filter_none; [simpl; lia|].
  intros w Hw Hin. by rewrite (Hnone w Hw) in Hin.
Qed.

Lemma no_german_marker_is_english_witness :
  detect_language "Backend services in Python" = "English".
Proof.
  apply no_german_marker_is_english.
  intros w Hw. unfold german_markers in Hw.
  repeat (apply elem_of_cons in Hw as [->|Hw]; [reflexivity|]).
  inversion Hw.
Defined.

Section PromptExtras.

Context {Profile : Type}.
Variable dumps_profile : Profile -> string.
Variable dumps_job : JobRecord -> string.

Lemma append_assoc (a b c : string) : (a +:+ b) +:+ c = a +:+ b +:+ c.
Proof.
  induction a as [|x a IH]; [done|].
  change (String x ((a +:+ b) +:+ c) = String x (a +:+ b +:+ c)).
  by rewrite IH.
Qed.

(** X21. The prompt sent for a job asks for German when the German
    markers in the job's description outnumber the English ones, and
    for English otherwise. *)
Theorem tailored_prompt_language profile job :
  let t := Py.lower (description job) in
  Py.contains
    (if bool_decide (english_score t < german_score t)
     then german_instruction else english_instruction)
    (tailored_prompt dumps_profile dumps_job profile job) = true.
Proof.
  intros t. unfold tailored_prompt, detect_language. fold t.
  destruct (bool_decide (english_score t < german_score t)).
  - apply (prompt_has_instruction dumps_profile dumps_job profile job "German").
  - apply (prompt_has_instruction dumps_profile dumps_job profile job "English").
Qed.

(** X22. Whatever the target language, the prompt carries the JSON text
    of the profile and the JSON text of the job. *)
Theorem prompt_embeds_profile_and_job profile job target_language :
  let prompt :=
    build_resume_prompt dumps_profile dumps_job profile job target_language in
  Py.contains (dumps_profile profile) prompt = true
  /\ Py.contains (dumps_job job) prompt = true.
Proof.
  intros prompt. unfold prompt, build_resume_prompt. split.
  - rewrite <- (append_assoc (language_instruction target_language)).
    rewrite <- (append_assoc prompt_head).
    apply contains_app.
  - rewrite <- (append_assoc prompt_requirements).
    rewrite <- (append_assoc (language_instruction target_language)).
    rewrite <- (append_assoc prompt_head).
    rewrite <- (append_assoc (prompt_head +:+ _)).
    apply contains_app.
Qed.

End PromptExtras.

(** ** The file name of a resume *)

(** Closes a goal from [H : x ∈ l] when [x] is none of the listed
    numbers. *)
Ltac not_listed H :=
  repeat (apply elem_of_cons in H as [H|H]; [discriminate H|]);
  inversion H.

Section FilenameProperties.

Import Filename.

Variable isalnum : N -> bool.
Variable isspace : N -> bool.

Lemma lstrip_subseteq (s : list N) c : c ∈ lstrip isspace s -> c ∈ s.
Proof.
  induction s as [|x s IH]; [done|]. simpl.
  destruct (isspace x); [|done]. intros H. right. by apply IH.
Qed.

Lemma strip_subseteq (s : list N) c : c ∈ strip isspace s -> c ∈ s.
Proof.
  unfold strip, rstrip. intros H.
  rewrite elem_of_reverse in H. apply lstrip_subseteq in H.
  rewrite elem_of_reverse in H. by apply lstrip_subseteq in H.
Qed.

(** Each character of a sanitized name is a name character. *)
Lemma sanitize_filename_elem (text : list N) (c : N) :
  c ∈ sanitize_filename isalnum isspace text -> name_char isalnum c.
Proof.
  intros Hc. unfold sanitize_filename, replace_spaces in Hc.
  apply list_elem_of_fmap in Hc as (c0 & -> & Hc0).
  apply strip_subseteq in Hc0.
  apply list_elem_of_In, filter_In in Hc0 as [_ Hkept].
  unfold kept in Hkept. unfold name_char.
  destruct (c0 =? space)%N eqn:Hsp.
  - split; [done|]. right. vm_compute. set_solver.
  - apply N.eqb_neq in Hsp. split; [done|].
    apply orb_true_iff in Hkept as [Halnum|Hkeep]; [by left|].
    right. apply bool_decide_eq_true in Hkeep.
    unfold keep in Hkeep. vm_compute in Hkeep |- *.
    repeat (apply elem_of_cons in Hkeep as [->|Hkeep]; [set_solver|]).
    inversion Hkeep.
Qed.

(** X23. A sanitized name has no space in it and consists only of
    alphanumeric characters and the characters "-", "_", ".", "(", ")". *)
Theorem sanitize_filename_alphabet (text : list N) :
  Forall (fun c => c <> space
                   /\ (isalnum c = true \/ c ∈ codepoints "-_.()"))
    (sanitize_filename isalnum isspace text).
Proof.
  apply Forall_forall. intros c Hc.
  by apply (sanitize_filename_elem text c).
Qed.

Lemma lstrip_fixed (s : list N) :
  Forall (fun c => isspace c = false) s -> lstrip isspace s = s.
Proof. intros Hs. destruct Hs as [|c s Hc Hs]; [done|]. simpl. by rewrite Hc. Qed.

Lemma strip_fixed (s : list N) :
  Forall (fun c => isspace c = false) s -> strip isspace s = s.
Proof.
  intros Hs. unfold strip, rstrip. rewrite (lstrip_fixed s Hs).
  rewrite lstrip_fixed; [apply reverse_involutive|].
  by apply Forall_reverse.
Qed.

Lemma filter_fixed {A} (p : A -> bool) (l : list A) :
  Forall (fun x => p x = true) l -> List.filter p l = l.
Proof.
  induction 1 as [|x l Hx Hl IH]; [done|]. simpl. by rewrite Hx, IH.
Qed.

Lemma replace_spaces_fixed (s : list N) :
  Forall (fun c => c <> space) s -> replace_spaces s = s.
Proof.
  unfold replace_spaces. induction 1 as [|c s Hc Hs IH]; [done|].
  rewrite fmap_cons, IH. apply N.eqb_neq in Hc. by rewrite Hc.
Qed.

Lemma name_char_kept (c : N) : name_char isalnum c -> kept isalnum c = true.
Proof.
  intros [_ [Hc|Hc]]; unfold kept; [by rewrite Hc|].
  apply orb_true_iff. right. apply bool_decide_eq_true.
  change (codepoints "-_.()") with [45; 95; 46; 40; 41]%N in Hc.
  change keep with [45; 95; 46; 40; 41; 32]%N.
  revert Hc. rewrite !elem_of_cons. tauto.
Qed.

(** A name made of name characters is left as it is. *)
Lemma sanitize_filename_fixed (name : list N) :
  (forall c, isalnum c = true -> isspace c = false) ->
  (forall c, c ∈ codepoints "-_.()" -> isspace c = false) ->
  Forall (name_char isalnum) name ->
  sanitize_filename isalnum isspace name = name.
Proof.
  intros Halnum Hpunct Hname. unfold sanitize_filename.
  rewrite filter_fixed, strip_fixed, replace_spaces_fixed; [done|..].
  - eapply Forall_impl; [exact Hname|]. by intros c [Hc _].
  - eapply Forall_impl; [exact Hname|].
    intros c [_ [Hc|Hc]]; [by apply Halnum|by apply Hpunct].
  - eapply Forall_impl; [exact Hname|]. apply name_char_kept.
Qed.

(** X24. Sanitizing a sanitized name changes nothing, given that no
    alphanumeric character and none of "-", "_", ".", "(", ")" counts
    as white space. *)
Theorem sanitize_filename_idempotent (text : list N) :
  (forall c, isalnum c = true -> isspace c = false) ->
  (forall c, c ∈ codepoints "-_.()" -> isspace c = false) ->
  sanitize_filename isalnum isspace (sanitize_filename isalnum isspace text)
  = sanitize_filename isalnum isspace text.
Proof.
  intros Halnum Hpunct.
  apply sanitize_filename_fixed; [done|done|].
  apply Forall_forall. apply sanitize_filename_elem.
Qed.

(** X25. The file name of a resume holds no "/" whatever the company
    and the title are, given that "/" is not alphanumeric and the date
    string has none. *)
Theorem resume_filename_no_slash (company title date_str : list N) :
  isalnum 47%N = false ->
  47%N ∉ date_str ->
  47%N ∉ resume_filename isalnum isspace company title date_str.
Proof.
  intros Hslash Hdate.
  assert (Hsan : forall text, 47%N ∉ sanitize_filename isalnum isspace text).
  { intros text Hin.
    destruct (sanitize_filename_elem text _ Hin) as [_ [Hc|Hc]].
    - congruence.
    - vm_compute in Hc. not_listed Hc. }
  unfold resume_filename. rewrite !elem_of_app.
  intros [H|[H|[H|[H|[H|[H|H]]]]]].
  - vm_compute in H. not_listed H.
  - by apply (Hsan company).
  - apply list_elem_of_singleton in H. discriminate H.
  - by apply (Hsan title).
  - apply list_elem_of_singleton in H. discriminate H.
  - done.
  - vm_compute in H. not_listed H.
Qed.

End FilenameProperties.

Lemma latin1_alnum_not_space (c : N) :
  Filename.isalnum_latin1 c = true -> Filename.isspace_latin1 c = false.
Proof.
  unfold Filename.isalnum_latin1, Filename.isspace_latin1.
  intros Ha. apply not_true_is_false. intros Hs. revert Ha Hs.
  rewrite !orb_true_iff, !andb_true_iff, !negb_true_iff, !N.leb_le,
    !N.eqb_eq, !N.eqb_neq, bool_decide_eq_true, !elem_of_cons, elem_of_nil.
  lia.
Qed.

Lemma latin1_punct_not_space (c : N) :
  c ∈ Filename.codepoints "-_.()" -> Filename.isspace_latin1 c = false.
Proof.
  intros Hc. vm_compute in Hc.
  repeat (apply elem_of_cons in Hc as [->|Hc]; [reflexivity|]).
  inversion Hc.
Qed.

Lemma sanitize_filename_idempotent_witness :
  let name := Filename.sanitize_filename Filename.isalnum_latin1
                Filename.isspace_latin1
                (Filename.codepoints "  ACME GmbH / Berlin ") in
  Filename.sanitize_filename Filename.isalnum_latin1
    Filename.isspace_latin1 name = name.
Proof.
  apply sanitize_filename_idempotent.
  - apply latin1_alnum_not_space.
  - apply latin1_punct_not_space.
Defined.

Lemma resume_filename_no_slash_witness :
  47%N ∉ Filename.resume_filename Filename.isalnum_latin1
           Filename.isspace_latin1
           (Filename.codepoints "A/B Corp") (Filename.codepoints "Dev/Ops")
           (Filename.codepoints "20251203").
Proof.
  apply resume_filename_no_slash.
  - reflexivity.
  - intros H. vm_compute in H. not_listed H.
Defined.

Example sanitize_filename_sample :
  Filename.sanitize_filename Filename.isalnum_latin1 Filename.isspace_latin1
    (Filename.codepoints "  ACME GmbH / Berlin ")
  = Filename.codepoints "ACME_GmbH__Berlin".
Proof. reflexivity. Qed.

Example resume_filename_sample :
  Filename.resume_filename Filename.isalnum_latin1 Filename.isspace_latin1
    (Filename.codepoints "ExampleTech GmbH") (Filename.codepoints "AI Engineer")
    (Filename.codepoints "20251203")
  = Filename.codepoints "resume_ExampleTech_GmbH_AI_Engineer_20251203.md".
Proof. reflexivity. Qed.

(** * The merge on the stored cells *)

Section StoredCells.

Implicit Types (wb : Workbook) (df : list Row) (jobs : list JobRecord).
Implicit Types (today platform : string).

Lemma frame_parse wb platform :
  Xlsx.frame wb platform = Xlsx.parse_row <$> sheet wb platform.
Proof.
  unfold Xlsx.frame, Xlsx.read_excel, sheet, read_excel.
  by destruct (wb !! platform).
Qed.

Lemma sheet_stored df platform wb :
  sheet (Xlsx.to_excel df platform wb) platform = Xlsx.store_row <$> df.
Proof. exact (sheet_to_excel (Xlsx.store_row <$> df) platform wb). Qed.

(** Either nothing survives the filter and the file is not written, or
    the parsed rows and the new rows are stored. *)
Lemma stored_merge_cases today jobs platform wb :
  let df := Xlsx.frame wb platform in
  Xlsx.append_jobs_to_excel today jobs platform wb
  = if df_empty (added_rows today df jobs) then wb
    else Xlsx.to_excel (df ++ added_rows today df jobs) platform wb.
Proof.
  intros df. unfold Xlsx.append_jobs_to_excel, added_rows.
  destruct jobs as [|j jobs]; [by destruct (df_empty df)|].
  change (match Xlsx.read_excel wb platform with Some d => d | None => [] end)
    with df.
  destruct df as [|r df']; simpl df_empty; cbv iota; [done|].
  by destruct (df_empty _).
Qed.

Lemma added_rows_cover today df jobs j :
  j ∈ jobs -> Some (url j) ∈ urls (df ++ added_rows today df jobs).
Proof.
  intros Hj. unfold urls. rewrite fmap_app, elem_of_app. unfold added_rows.
  destruct df as [|r df]; simpl df_empty; cbv iota.
  - right. apply list_elem_of_fmap. exists (new_row today j). split; [done|].
    apply list_elem_of_fmap. eauto.
  - destruct (decide (Some (url j) ∈ urls (r :: df))) as [Hin|Hout]; [by left|].
    right. apply list_elem_of_fmap. exists (new_row today j). split; [done|].
    apply list_elem_of_filter. split.
    + by apply isin_false.
    + apply list_elem_of_fmap. eauto.
Qed.

(** A URL that starts with "http" is stored and read back as it is. *)
Lemma http_url_round_trip (u : string) :
  Py.startswith "http" u = true ->
  Xlsx.parse_cell (Xlsx.store_cell (Some u)) = Some u.
Proof.
  intros Hu.
  assert (Hna : Xlsx.is_na u = false).
  { apply bool_decide_eq_false. intros Hin. unfold Xlsx.na_values in Hin.
    repeat (apply elem_of_cons in Hin as [->|Hin]; [discriminate Hu|]).
    inversion Hin. }
  destruct u as [|c u]; [discriminate Hu|].
  simpl. by rewrite Hna.
Qed.

(** When every URL of the batch starts with "http", a second merge of
    the batch does not write. *)
Lemma stored_merge_again today today' jobs platform wb :
  Forall (fun j => Py.startswith "http" (url j) = true) jobs ->
  let once := Xlsx.append_jobs_to_excel today jobs platform wb in
  Xlsx.append_jobs_to_excel today' jobs platform once = once.
Proof.
  intros Hhttp once.
  rewrite (stored_merge_cases today' jobs platform once).
  cbv zeta. rewrite added_rows_covered; [done| |].
  - intros Hne Hnil. destruct jobs as [|j0 jobs]; [done|].
    pose proof (added_rows_cover today (Xlsx.frame wb platform) (j0 :: jobs) j0
                  ltac:(left)) as Hc.
    unfold once in Hnil. rewrite stored_merge_cases in Hnil. cbv zeta in Hnil.
    destruct (df_empty (added_rows _ _ _)) eqn:He.
    + apply df_empty_true in He. rewrite He, app_nil_r, Hnil in Hc.
      inversion Hc.
    + rewrite frame_parse, sheet_stored in Hnil.
      apply fmap_nil_inv, fmap_nil_inv in Hnil.
      rewrite Hnil in Hc. inversion Hc.
  - intros j Hj.
    pose proof (added_rows_cover today (Xlsx.frame wb platform) jobs j Hj) as Hc.
    unfold once. rewrite stored_merge_cases. cbv zeta.
    destruct (df_empty (added_rows _ _ _)) eqn:He.
    + apply df_empty_true in He. by rewrite He, app_nil_r in Hc.
    + rewrite (frame_parse (Xlsx.to_excel _ _ _)), sheet_stored.
      unfold urls in *. apply list_elem_of_fmap in Hc as (r & Hr & Hin).
      apply list_elem_of_fmap. exists (Xlsx.parse_row (Xlsx.store_row r)).
      split.
      * simpl. rewrite <- Hr. symmetry. apply http_url_round_trip.
        rewrite Forall_forall in Hhttp. by apply Hhttp.
      * apply list_elem_of_fmap. exists (Xlsx.store_row r). split; [done|].
        apply list_elem_of_fmap. eauto.
Qed.

(** C3. When every URL of the batch starts with "http", as the URLs of
    scraped records do, merging the batch a second time leaves the row
    count of the platform sheet as the first merge left it. *)
Theorem stored_merge_twice_row_count today today' jobs platform wb :
  Forall (fun j => Py.startswith "http" (url j) = true) jobs ->
  let once := Xlsx.append_jobs_to_excel today jobs platform wb in
  let twice := Xlsx.append_jobs_to_excel today' jobs platform once in
  length (sheet twice platform) = length (sheet once platform).
Proof.
  intros Hhttp once twice. unfold twice, once.
  by rewrite stored_merge_again.
Qed.

Lemma stored_merge_twice_row_count_witness :
  let wb : Workbook := <["StepStone" := [Xlsx.noted_row]]> ∅ in
  let once := Xlsx.append_jobs_to_excel "2025-12-03"
                [Xlsx.fresh_job; Fixture.job_a] "StepStone" wb in
  let twice := Xlsx.append_jobs_to_excel "2025-12-04"
                 [Xlsx.fresh_job; Fixture.job_a] "StepStone" once in
  length (sheet twice "StepStone") = length (sheet once "StepStone").
Proof.
  apply stored_merge_twice_row_count.
  repeat constructor.
Defined.

(** C3, as the specification words it: a record whose URL is the text
    "NA" is stored by the first merge and stored again by the second. *)
Lemma stored_merge_twice_adds_na_url :
  let once := Xlsx.append_jobs_to_excel "2025-12-03" [Xlsx.na_job] "StepStone"
                (create_excel_if_not_exists None) in
  let twice := Xlsx.append_jobs_to_excel "2025-12-04" [Xlsx.na_job] "StepStone"
                 once in
  length (sheet once "StepStone") = 1 /\ length (sheet twice "StepStone") = 2.
Proof. vm_compute. done. Qed.

(** C5. A merge that adds only a new URL rewrites a stored row: the
    texts "N/A" and "n/a" in its Company, Posted Date and Notes cells
    are stored as empty cells afterwards. *)
Theorem stored_merge_blanks_na_cells :
  let wb : Workbook := <["StepStone" := [Xlsx.noted_row]]> ∅ in
  let after := sheet (Xlsx.append_jobs_to_excel "2025-12-03" [Xlsx.fresh_job]
                        "StepStone" wb) "StepStone" in
  (Some (url Xlsx.fresh_job) ∉ urls (sheet wb "StepStone"))
  /\ length after = 2
  /\ (Notes <$> after) !! 0 = Some None
  /\ (Posted_Date <$> after) !! 0 = Some None
  /\ (Company <$> after) !! 0 = Some None
  /\ after !! 0 <> Some Xlsx.noted_row.
Proof.
  split.
  - intros H. vm_compute in H. apply list_elem_of_singleton in H. discriminate H.
  - vm_compute. by repeat split.
Qed.

End StoredCells.

Section StoredCellsMore.

Implicit Types (wb : Workbook) (jobs : list JobRecord).
Implicit Types (today platform : string).

(** X1. After [create_excel_if_not_exists] a loadable file has no sheet
    "Jobs"; the file is left unloadable exactly when it was so before
    or "Jobs" was its only sheet; a second call changes nothing. *)
Theorem stored_create_excel_no_jobs_sheet (file : Xlsx.File) :
  (forall wb, Xlsx.create_excel_if_not_exists file = Xlsx.Book wb ->
              wb !! "Jobs" = None)
  /\ (forall wb, file = Xlsx.Book wb ->
        (Xlsx.create_excel_if_not_exists file = Xlsx.Unreadable
         <-> is_Some (wb !! "Jobs") /\ delete "Jobs" wb = ∅))
  /\ Xlsx.create_excel_if_not_exists (Xlsx.create_excel_if_not_exists file)
     = Xlsx.create_excel_if_not_exists file.
Proof.
  assert (Hfresh : (Xlsx.to_excel [] "LinkedIn" (Xlsx.to_excel [] "StepStone" ∅)
                      : Workbook) !! "Jobs" = None).
  { unfold Xlsx.to_excel. by rewrite !lookup_insert_ne, lookup_empty. }
  split; [|split].
  - intros wb' Hbook. destruct file as [| |wb]; simpl in Hbook.
    + by injection Hbook as <-.
    + discriminate Hbook.
    + destruct (wb !! "Jobs") eqn:Hj.
      * case_bool_decide; [discriminate Hbook|].
        injection Hbook as <-. apply lookup_delete_eq.
      * by injection Hbook as <-.
  - intros wb ->. simpl. destruct (wb !! "Jobs") eqn:Hj.
    + case_bool_decide.
      * split; [|done]. intros _. split; [by eexists|done].
      * split; [discriminate|]. by intros [_ He].
    + split; [done|]. intros [[x Hx] _]. discriminate Hx.
  - destruct file as [| |wb]; simpl.
    + by rewrite Hfresh.
    + done.
    + destruct (wb !! "Jobs") eqn:Hj.
      * case_bool_decide; [done|]. simpl. by rewrite lookup_delete_eq.
      * simpl. by rewrite Hj.
Qed.

Lemma stored_create_excel_no_jobs_sheet_witness :
  let wb : Workbook := <["Jobs" := []]> (<["StepStone" := [Xlsx.noted_row]]> ∅) in
  delete "Jobs" wb !! "Jobs" = None.
Proof.
  intros wb.
  apply (proj1 (stored_create_excel_no_jobs_sheet (Xlsx.Book wb))).
  vm_compute. reflexivity.
Defined.



(** X4. When a merge writes, the sheet is the stored rows as read and
    written back, followed by one row per surviving record: its text
    cells are the record's fields, Date Added is today's date, Applied
    is "No", Status is "New", Application Date and Notes are empty. *)
Theorem stored_merge_added_rows today jobs platform wb :
  let after := sheet (Xlsx.append_jobs_to_excel today jobs platform wb) platform in
  after = sheet wb platform
  \/ exists added,
       added <> []
       /\ after = ((fun r => Xlsx.store_row (Xlsx.parse_row r)) <$> sheet wb platform)
                  ++ added
       /\ Forall (fun r => exists j, j ∈ jobs /\
            r = {| Job_Title := Xlsx.store_cell (Some (title j));
                   Company := Xlsx.store_cell (Some (company j));
                   Location := Xlsx.store_cell (Some (location j));
                   Description := Xlsx.store_cell (Some (description j));
                   URL := Xlsx.store_cell (Some (url j));
                   Posted_Date := Xlsx.store_cell (Some (posted_date j));
                   Date_Added := Xlsx.store_cell (Some today);
                   Applied := Some "No";
                   Application_Date := None;
                   Status := Some "New";
                   Notes := None |}) added.
Proof.
  intros after. unfold after. rewrite stored_merge_cases. cbv zeta.
  destruct (added_rows today (Xlsx.frame wb platform) jobs) as [|a rows] eqn:Hadd;
    simpl df_empty; cbv iota; [by left|].
  right. exists (Xlsx.store_row <$> (a :: rows)). split; [done|]. split.
  - rewrite sheet_stored, fmap_app, frame_parse. by rewrite <- list_fmap_compose.
  - apply Forall_forall. intros r (r0 & -> & Hr0)%list_elem_of_fmap.
    assert (Hin : r0 ∈ new_row today <$> jobs).
    { rewrite <- Hadd in Hr0. unfold added_rows in Hr0.
      destruct (df_empty _); [done|].
      by apply list_elem_of_filter in Hr0 as [_ Hr0]. }
    apply list_elem_of_fmap in Hin as (j & -> & Hj).
    by exists j.
Qed.

(** X6. When the frame read from the platform sheet has rows and holds
    every URL of the batch, the merge does not write: the workbook is
    unchanged. *)
Theorem stored_merge_all_stored_noop today jobs platform wb :
  Xlsx.frame wb platform <> [] ->
  (forall j, j ∈ jobs -> Some (url j) ∈ urls (Xlsx.frame wb platform)) ->
  Xlsx.append_jobs_to_excel today jobs platform wb = wb.
Proof.
  intros Hne Hall. rewrite stored_merge_cases. cbv zeta.
  by rewrite added_rows_covered.
Qed.

Lemma stored_merge_all_stored_noop_witness :
  Xlsx.append_jobs_to_excel "2025-12-03" [Fixture.job_a; Fixture.job_a]
    "StepStone" (<["StepStone" := [Xlsx.noted_row]]> ∅)
  = <["StepStone" := [Xlsx.noted_row]]> ∅.
Proof.
  apply stored_merge_all_stored_noop.
  - discriminate.
  - intros j Hj.
    assert (j = Fixture.job_a) as ->.
    { apply elem_of_cons in Hj as [->|Hj]; [done|].
      by apply list_elem_of_singleton in Hj. }
    apply list_elem_of_singleton. reflexivity.
Defined.

End StoredCellsMore.
